(** * Retrieval-and-ranking pipeline of the document question-answering backend

    A shallow embedding of the Python modules under
    [backend/lambda_layers/custom_modules_layer]:

    - [kb_documents_retriever/ep_documents_retriever.py]  (hybrid retrieval, merge)
    - [ep_nlp/reranker.py]                                (relative-score cutoff)
    - [ep_nlp/query_analyzer.py]                          (intent, guardrail)
    - [ep_nlp/translator.py]                              (query translation)
    - [ep_nlp/claude_context_formatter.py], [ep_nlp/utils.py]
    - [ep_nlp/chatbot.py]                                 (orchestration)
    - [ep_nlp/opensearch_documents_retriever.py]          (vector retrieval)
    - [kb_documents_retriever/knowledgebase_documents_retriever.py]
    - [ep_nlp/generic_context_formatter.py]
    - [ep_nlp/generic_documents_list_formatter.py],
      [ep_documents_list_formatter/ep_documents_list_formatter.py]

    and of the request handler [backend/lambda_functions/aws_answer_question.py].

    Python exceptions are values of [exn]; every function that talks to an
    external service runs in the monad [M], which threads the list of calls
    and log records made so far and returns either a value or a raised
    exception.  Relevance scores are JSON numbers; they are represented by
    exact rationals, so the rounding of binary64 products is not part of
    the model. *)

From Stdlib Require Import ZArith QArith Qround Lqa Ascii String.
From stdpp Require Import base option list strings gmap pretty.

#[global] Set Warnings "-clear-no-such-hyp".

Local Open Scope string_scope.
Local Open Scope list_scope.

(** ** Python values

    The values produced by [json.loads]: [None], booleans, integers,
    floats, strings, lists and dictionaries (string keys, in insertion
    order). *)

#[warnings="-register-all"] Inductive json :=
| JNull
| JBool (b : bool)
| JInt (n : Z)
| JFloat (q : Q)
| JStr (s : string)
| JArr (items : list json)
| JObj (fields : list (string * json)).

(** The exception classes the modelled code raises, catches or lets
    through. *)
Inductive exn :=
| ClientError            (* botocore.exceptions.ClientError *)
| ParamValidationError   (* botocore.exceptions.ParamValidationError *)
| BedrockHelperError
| ValueError
| JSONDecodeError
| KeyError
| IndexError
| TypeError
| AttributeError.

Inductive result (A : Type) :=
| Ok (a : A)
| Raise (e : exn).
Arguments Ok {A} a.
Arguments Raise {A} e.

#[global] Instance exn_eq_dec : EqDecision exn.
Proof. solve_decision. Defined.

(** ** Search hits

    An OpenSearch hit is the dictionary
    [{"_index": .., "_id": .., "_score": .., "_source": {..}}].  The code
    reads ['_id'] with [dict.get], so an absent identity is [None]; the
    fields of ['_source'] the code touches are text. *)

Record Hit := mkHit {
  _id : option string;
  _score : Q;
  _source : gmap string string
}.

(** ** Calls and log records

    What a request leaves behind, in the order it happened: the calls to
    the external services and the [logger.warning] / [logger.error]
    records (a message is recorded up to its first interpolated value;
    [info] and [debug] records and [print] are not modelled). *)

Inductive search_body :=
| KnnBody (size : nat) (vector : list Q) (include_fields : option (list string))
| Bm25Body (size : nat) (query : json) (include_fields : option (list string)).

Inductive event :=
| LogWarning (msg : string)
| LogError (msg : string)
| InvokeModel (body : json) (guardrail : option (string * string))
| GetEmbeddings (text : string)
| Search (body : search_body)
| InvokeRerank (model_id : string) (query : json) (documents : list string).

(** A computation receives the history so far and returns its outcome
    together with the extended history. *)
Definition M (A : Type) : Type := list event → result A * list event.

Definition ret {A} (a : A) : M A := λ t, (Ok a, t).

Definition bind {A B} (m : M A) (f : A → M B) : M B :=
  λ t, match m t with
       | (Ok a, t') => f a t'
       | (Raise e, t') => (Raise e, t')
       end.

Definition raise {A} (e : exn) : M A := λ t, (Raise e, t).

(** [try: m except ...: h]; the handler answers [None] for the exceptions
    no [except] clause matches. *)
Definition try_except {A} (m : M A) (h : exn → option (M A)) : M A :=
  λ t, match m t with
       | (Ok a, t') => (Ok a, t')
       | (Raise e, t') =>
           match h e with
           | Some k => k t'
           | None => (Raise e, t')
           end
       end.

Definition log (e : event) : M unit := λ t, (Ok tt, t ++ [e]).

(** A call to an external service: the service answers as a function of
    the history, and the call is recorded. *)
Definition call {A} (e : event) (service : list event → result A) : M A :=
  λ t, (service t, t ++ [e]).

Definition lift {A} (r : result A) : M A := λ t, (r, t).

#[global] Instance Qlt_decision (x y : Q) : Decision (x < y)%Q :=
  decide (Qnum x * QDen y < Qnum y * QDen x)%Z.

#[global] Instance result_ret : MRet result := @Ok.
#[global] Instance result_bind : MBind result :=
  λ A B f r, match r with Ok a => f a | Raise e => Raise e end.
#[global] Instance M_ret : MRet M := @ret.
#[global] Instance M_bind : MBind M := λ A B f m, bind m f.

(** ** The environment

    The services the pipeline calls and the Python built-ins it relies
    on.  Each service may answer differently as the history grows. *)

Record World := mkWorld {
  (* built-ins *)
  json_loads : string → option json;               (* None: JSONDecodeError *)
  str_format : string → list json → result string; (* template.format, all values splatted *)
  isprintable : ascii → bool;                      (* str.isprintable, per character *)
  (* boto3 bedrock-runtime client: the text of response body *)
  bedrock_rt_invoke_model :
    list event → json → option (string * string) → result string;
  (* Text2VectorProcessor.get_embeddings *)
  text2Vec_get_embeddings : list event → string → result (list Q);
  (* opensearch_client.search, projected on hits.hits *)
  opensearch_search : list event → search_body → result (list Hit);
  (* the rerank model behind bedrock-runtime: the text of the response body *)
  rerank_invoke_model :
    list event → string → json → list string → result string
}.

(** ** Configuration ([askthedocs_config.get_configuration()])

    An absent key is [None]. *)

Record PromptTemplate := mkPromptTemplate {
  tpl_system : string;
  tpl_request : list (string * json);   (* the REQUEST_BODY dictionary *)
  tpl_prompt : string
}.

Record Config := mkConfig {
  bedrock_guardrail_id : option string;
  bedrock_guardrail_version : option string;
  prompt_translate_template_id : option string;
  rerank_model_id : option string;
  ndx_custom_fields : list string;
  ndx_custom_field_aliases : option (list (string * string)); (* name, alias *)
  prompt_templates : gmap string PromptTemplate
}.

(** ** The Python operations the code applies to parsed values *)

Module Py.

Fixpoint assoc (k : string) (fields : list (string * json)) : option json :=
  match fields with
  | [] => None
  | (k', v) :: rest => if String.eqb k k' then Some v else assoc k rest
  end.

(** [d[k] = v] on a dictionary: replaces in place, else appends. *)
Fixpoint assoc_set (k : string) (v : json) (fields : list (string * json))
  : list (string * json) :=
  match fields with
  | [] => [(k, v)]
  | (k', v') :: rest =>
      if String.eqb k k' then (k, v) :: rest else (k', v') :: assoc_set k v rest
  end.

(** Truth value of an object, as tested by [if x:] and [not x]. *)
Definition truthy (j : json) : bool :=
  match j with
  | JNull => false
  | JBool b => b
  | JInt n => negb (n =? 0)%Z
  | JFloat q => negb (Qeq_bool q 0%Q)
  | JStr s => negb (String.eqb s "")
  | JArr items => match items with [] => false | _ => true end
  | JObj fields => match fields with [] => false | _ => true end
  end.

(** [d.get(k, default)]: only dictionaries have the method. *)
Definition get (d : json) (k : string) (default : json) : result json :=
  match d with
  | JObj fields => Ok (from_option id default (assoc k fields))
  | _ => Raise AttributeError
  end.

(** [d[k]] with a string key. *)
Definition getitem (d : json) (k : string) : result json :=
  match d with
  | JObj fields =>
      match assoc k fields with
      | Some v => Ok v
      | None => Raise KeyError
      end
  | _ => Raise TypeError
  end.

(** [l[i]] on a list: negative positions count from the end. *)
Definition list_index {A} (l : list A) (i : Z) : result A :=
  let n := Z.of_nat (length l) in
  let pos := if (i <? 0)%Z then (n + i)%Z else i in
  if (pos <? 0)%Z then Raise IndexError
  else match l !! Z.to_nat pos with
       | Some x => Ok x
       | None => Raise IndexError
       end.

Fixpoint chars (s : string) : list string :=
  match s with
  | EmptyString => []
  | String c rest => String c EmptyString :: chars rest
  end.

(** [x[i]] with an integer position. *)
Definition getitem_int (x : json) (i : Z) : result json :=
  match x with
  | JArr items => list_index items i
  | JStr s => list_index (JStr <$> chars s) i
  | JObj _ => Raise KeyError
  | _ => Raise TypeError
  end.

(** [for y in x]. *)
Definition iter (x : json) : result (list json) :=
  match x with
  | JArr items => Ok items
  | JStr s => Ok (JStr <$> chars s)
  | JObj fields => Ok ((λ kv, JStr kv.1) <$> fields)
  | _ => Raise TypeError
  end.

(** The numbers: [int], [float], and [bool] as a subclass of [int]. *)
Definition to_number (j : json) : option Q :=
  match j with
  | JInt n => Some (inject_Z n)
  | JFloat q => Some q
  | JBool b => Some (if b then 1%Q else 0%Q)
  | _ => None
  end.

(** What may index a list: [int] and [bool]. *)
Definition to_index (j : json) : option Z :=
  match j with
  | JInt n => Some n
  | JBool b => Some (if b then 1 else 0)%Z
  | _ => None
  end.

(** [x * f] for a float [f]: defined on numbers only. *)
Definition mul_float (x : json) (f : Q) : result Q :=
  match to_number x with
  | Some q => Ok (q * f)%Q
  | None => Raise TypeError
  end.

(** [x > f] for a float [f]: strict, defined on numbers only. *)
Definition gt_float (x : json) (f : Q) : result bool :=
  match to_number x with
  | Some q => Ok (negb (Qle_bool q f))
  | None => Raise TypeError
  end.

(** [x != s] for a string [s]. *)
Definition ne_str (x : json) (s : string) : bool :=
  match x with
  | JStr s' => negb (String.eqb s' s)
  | _ => true
  end.

Fixpoint all_str (items : list json) : option (list string) :=
  match items with
  | [] => Some []
  | JStr s :: rest => cons s <$> all_str rest
  | _ :: _ => None
  end.

(** [sep.join(x)]: every element must be a string. *)
Definition join (sep : string) (x : json) : result string :=
  match iter x with
  | Raise e => Raise e
  | Ok items =>
      match all_str items with
      | Some ss => Ok (String.concat sep ss)
      | None => Raise TypeError
      end
  end.

(** [json.loads(x)]: the argument must be a string. *)
Definition loads (w : World) (x : json) : result json :=
  match x with
  | JStr s =>
      match json_loads w s with
      | Some j => Ok j
      | None => Raise JSONDecodeError
      end
  | _ => Raise TypeError
  end.

End Py.

(** ** [ep_nlp/bedrock_helper.py] and [utils.get_request_body_template] *)

Module BedrockHelper.
Section with_world.
Context (w : World) (cfg : Config).

(** [utils.get_request_body_template]: the three entries of
    [cached_config['prompt_templates'][template_name]]; a missing
    template is a [KeyError]. *)
Definition get_request_body_template (template_name : option string)
  : result PromptTemplate :=
  match template_name ≫= (λ name, prompt_templates cfg !! name) with
  | Some tpl => Ok tpl
  | None => Raise KeyError
  end.

(** [request_body['messages'][0]['content'] = prompt]. *)
Definition set_first_message (request_body : list (string * json)) (prompt : string)
  : result (list (string * json)) :=
  match Py.getitem (JObj request_body) "messages" with
  | Raise e => Raise e
  | Ok messages =>
      match Py.getitem_int messages 0 with
      | Raise e => Raise e
      | Ok first =>
          match messages, first with
          | JArr (_ :: others), JObj fields =>
              Ok (Py.assoc_set "messages"
                    (JArr (JObj (Py.assoc_set "content" (JStr prompt) fields) :: others))
                    request_body)
          | _, _ => Raise TypeError
          end
      end
  end.

(** [BedrockHelper.build_request_body].  The template returned by
    [get_request_body_template] is a three-entry dictionary, hence
    true, so the branch returning [None] is not reachable; the
    serialisation [json.dumps(..).encode('utf-8')] is kept as the
    dictionary it serialises.  The code writes into the REQUEST_BODY
    dictionary of the configuration itself; the entries it writes are
    written again by every call, so no call sees what an earlier one
    left. *)
Definition build_request_body (request_body_template_id : option string)
    (values : list json) (instruction_values : option (list json)) : M json :=
  request_body_template ← lift (get_request_body_template request_body_template_id);
  _ ← log (LogWarning "WHAT EXACTLY IS INSIDE request_body_template_id: ");
  _ ← log (LogWarning "WHAT EXACTLY IS INSIDE values: ");
  _ ← log (LogWarning "WHAT EXACTLY IS INSIDE request_body_template: ");
  prompt ← lift (str_format w (tpl_prompt request_body_template) values);
  system ← match instruction_values with
           | Some (v :: vs) => lift (str_format w (tpl_system request_body_template) (v :: vs))
           | _ => mret (tpl_system request_body_template)
           end;
  let request_body := tpl_request request_body_template in
  let request_body :=
    match Py.assoc "system" request_body with
    | Some _ => Py.assoc_set "system" (JStr system) request_body
    | None => request_body
    end in
  request_body ← lift (set_first_message request_body prompt);
  mret (JObj request_body).

(** [BedrockHelper.invoke_model_response]: the guardrail arguments
    are passed on only when an identifier is given. *)
Definition invoke_model_response (body : json) (guardrail : option (string * string))
  : M string :=
  call (InvokeModel body guardrail)
       (λ t, bedrock_rt_invoke_model w t body guardrail).

(** [BedrockHelper.invoke_model]. *)
Definition invoke_model (body : json) (guardrail : option (string * string)) : M json :=
  response ← invoke_model_response body guardrail;
  response_body ← lift (Py.loads w (JStr response));
  finish_reason ← lift (Py.get response_body "error" JNull);
  match finish_reason with
  | JNull => mret response_body
  | _ => raise BedrockHelperError
  end.

End with_world.
End BedrockHelper.

(** ** [ep_nlp/query_analyzer.py] *)

Record QueryElements := mkQueryElements {
  query_target_type : json;
  inferred_instructions : json;
  search_elements : json
}.

Record QueryIntent := mkQueryIntent {
  intent : json;
  reformulated_query : json
}.

Module QueryAnalyzer.
Section with_world.
Context (w : World) (cfg : Config).

(** The block both analysers share:
<<
    content = llm_answer.get("content", [])
    if content:
        json_text = json.loads(content[0].get('text', '{}'))
    else:
        json_text = {}
>> *)
Definition first_block_json (llm_answer : json) : result json :=
  content ← Py.get llm_answer "content" (JArr []);
  if Py.truthy content then
    first ← Py.getitem_int content 0;
    text ← Py.get first "text" (JStr "{}");
    Py.loads w text
  else Ok (JObj []).

(** [QueryAnalyzer.analyze_query]. *)
Definition analyze_query (query : json) (prompt_template : option string)
  : M (option QueryElements) :=
  let prompt_template :=
    match prompt_template with
    | Some name => if String.eqb name "" then "analyze_query" else name
    | None => "analyze_query"
    end in
  request_body ← BedrockHelper.build_request_body w cfg (Some prompt_template) [query] None;
  try_except
    (llm_answer ← BedrockHelper.invoke_model w request_body None;
     json_text ← lift (first_block_json llm_answer);
     target ← lift (Py.get json_text "query_target_type" (JStr "undefined"));
     instructions ← lift (Py.get json_text "inferred_instructions" (JStr "undefined"));
     elements ← lift (Py.get json_text "search_elements" (JArr []));
     mret (Some (mkQueryElements target instructions elements)))
    (λ e, match e with
          | JSONDecodeError =>
              Some (_ ← log (LogWarning "Failed to parse JSON from LLM response: ");
                    mret None)
          | _ => None
          end).

(** [QueryAnalyzer.get_query_intent]. *)
Definition get_query_intent (query : string) : M (option QueryIntent) :=
  request_body ← BedrockHelper.build_request_body w cfg (Some "get_query_intent")
                   [JStr query] None;
  try_except
    (llm_answer ← BedrockHelper.invoke_model w request_body None;
     json_text ← lift (first_block_json llm_answer);
     intent ← lift (Py.get json_text "intent" (JStr "undefined"));
     reformulated ← lift (Py.get json_text "reformulated_query" (JStr "undefined"));
     mret (Some (mkQueryIntent intent reformulated)))
    (λ e, match e with
          | JSONDecodeError =>
              Some (_ ← log (LogWarning "Failed to parse JSON from LLM response: ");
                    mret None)
          | _ => None
          end).

(** The body of the guardrail probe:
    one user message carrying the query, [max_tokens] of one. *)
Definition guardrail_probe (query : string) : json :=
  JObj [("anthropic_version", JStr "bedrock-2023-05-31");
        ("messages", JArr [JObj [("role", JStr "user"); ("content", JStr query)]]);
        ("max_tokens", JInt 1)].

(** [QueryAnalyzer.is_query_allowed]. *)
Definition is_query_allowed (query : string) : M bool :=
  let guardrail_id := default "not_found" (bedrock_guardrail_id cfg) in
  if String.eqb guardrail_id "not_found" then
    _ ← log (LogWarning "Guardrail not set. User query not checked.");
    mret true
  else
    let guardrail_version := default "DRAFT" (bedrock_guardrail_version cfg) in
    response ← BedrockHelper.invoke_model_response w (guardrail_probe query)
                 (Some (guardrail_id, guardrail_version));
    response_body ← lift (Py.loads w (JStr response));
    action ← lift (Py.get response_body "amazon-bedrock-guardrailAction" JNull);
    mret (Py.ne_str action "INTERVENED").

End with_world.
End QueryAnalyzer.

(** ** [ep_nlp/translator.py] *)

Module Translator.
Section with_world.
Context (w : World) (cfg : Config).

(** [Translator.translate]: [None] stands for the Python [None]
    returned after a client error. *)
Definition translate (query : string) (language_code : option string)
  : M (option json) :=
  let target_language :=
    match language_code with
    | Some code => if String.eqb code "" then "en" else code
    | None => "en"
    end in
  let template_id := prompt_translate_template_id cfg in
  request_body ← BedrockHelper.build_request_body w cfg template_id
                   [JStr query; JStr target_language] None;
  try_except
    (translated_query ← BedrockHelper.invoke_model w request_body None;
     mret (Some translated_query))
    (λ e, match e with
          | ParamValidationError => Some (raise ValueError)
          | ClientError =>
              Some (_ ← log (LogError "AWS client error during translation: ");
                    mret None)
          | _ => None
          end).

End with_world.
End Translator.

(** ** [ep_nlp/reranker.py] *)

Module ReRanker.
Section with_world.
Context (w : World).

(** [hit["_source"]["AMAZON_BEDROCK_TEXT_CHUNK"]]. *)
Definition text_chunk (hit : Hit) : result string :=
  match _source hit !! "AMAZON_BEDROCK_TEXT_CHUNK" with
  | Some chunk => Ok chunk
  | None => Raise KeyError
  end.

(** [threshold = top_score * 0.40]. *)
Definition threshold_of (top_score : json) : result Q :=
  Py.mul_float top_score 0.40%Q.

(** [[result["index"] for result in .. if result["relevance_score"] > threshold]]. *)
Fixpoint matching_indices (threshold : Q) (entries : list json) : result (list json) :=
  match entries with
  | [] => Ok []
  | entry :: rest =>
      score ← Py.getitem entry "relevance_score";
      keep ← Py.gt_float score threshold;
      if (keep : bool) then
        index ← Py.getitem entry "index";
        others ← matching_indices threshold rest;
        Ok (index :: others)
      else matching_indices threshold rest
  end.

(** [results[i]]. *)
Definition pick (results : list Hit) (i : json) : result Hit :=
  match Py.to_index i with
  | Some pos => Py.list_index results pos
  | None => Raise TypeError
  end.

(** Lines 72 to 79: from the parsed response to the kept hits. *)
Definition select (response_body : json) (results : list Hit) : result (list Hit) :=
  entries ← Py.getitem response_body "results";
  first ← Py.getitem_int entries 0;
  top_score ← Py.get first "relevance_score" (JInt 0);
  threshold ← threshold_of top_score;
  entries ← Py.iter entries;
  indices ← matching_indices threshold entries;
  mapM (pick results) indices.

(** The response of the rerank model, one entry per ranked position:
    a dictionary whose [results] list carries [index] and
    [relevance_score]. *)
Definition rerank_entry (e : Z * Q) : json :=
  JObj [("index", JInt e.1); ("relevance_score", JFloat e.2)].

Definition rerank_response (entries : list (Z * Q)) : json :=
  JObj [("results", JArr (rerank_entry <$> entries))].


(** [ReRanker.rerank_results]; [self_model_id] is the identifier given
    to the constructor, which is the one sent to the service. *)
Definition rerank_results (self_model_id : string) (query : json)
    (results : list Hit) (model_id : string) : M (list Hit) :=
  match results with
  | [] =>
      _ ← log (LogWarning "No results provided for reranking.");
      mret []
  | _ :: _ =>
      documents ← lift (mapM text_chunk results);
      response ← call (InvokeRerank self_model_id query documents)
                   (λ t, rerank_invoke_model w t self_model_id query documents);
      response_body ← lift (Py.loads w (JStr response));
      lift (select response_body results)
  end.

End with_world.
End ReRanker.

(** ** [ep_nlp/utils.remove_non_printable] and
       [ep_nlp/claude_context_formatter.py] *)

Module ClaudeContextFormatter.

Fixpoint string_filter (p : ascii → bool) (s : string) : string :=
  match s with
  | EmptyString => EmptyString
  | String c rest => if p c then String c (string_filter p rest) else string_filter p rest
  end.

Fixpoint string_map (f : ascii → ascii) (s : string) : string :=
  match s with
  | EmptyString => EmptyString
  | String c rest => String (f c) (string_map f rest)
  end.

(** [s.replace(old, new)] for one-character [old] and [new]. *)
Definition replace_char (old new : ascii) : string → string :=
  string_map (λ c, if Ascii.eqb c old then new else c).

Definition backslash : ascii := ascii_of_nat 92.
Definition double_quote : ascii := ascii_of_nat 34.
Definition slash : ascii := ascii_of_nat 47.
Definition single_quote : ascii := ascii_of_nat 39.

Section with_world.
Context (w : World) (cfg : Config).

(** [utils.remove_non_printable]. *)
Definition remove_non_printable (input_string : string) : string :=
  string_filter (isprintable w) input_string.

(** The loop of [apply_aliases] over the ['_source'] dictionary;
    [None] when [source[alias["name"]]] raises [KeyError]. *)
Fixpoint rename_fields (aliases : list (string * string)) (source : gmap string string)
  : option (gmap string string) :=
  match aliases with
  | [] => Some source
  | (name, alias) :: rest =>
      match source !! name with
      | Some value => rename_fields rest (delete name (<[alias := value]> source))
      | None => None
      end
  end.

(** [ClaudeContextFormatter.apply_aliases]: on [KeyError] the document
    gets the copy of its original ['_source'] back. *)
Definition apply_aliases (document : Hit) (aliases : list (string * string)) : M Hit :=
  match rename_fields aliases (_source document) with
  | Some source => mret (mkHit (_id document) (_score document) source)
  | None =>
      _ ← log (LogWarning "An error occurred applying custom field aliases. ");
      mret document
  end.

(** [ClaudeContextFormatter.replace_metadata_keys]. *)
Definition replace_metadata_keys (documents : list Hit) : M (list Hit) :=
  match ndx_custom_field_aliases cfg with
  | None =>
      _ ← log (LogWarning "Missing alias for document field or wrong field name. ");
      mret documents
  | Some [] => mret documents
  | Some aliases => mapM (λ document, apply_aliases document aliases) documents
  end.

(** One turn of the loop of [format_context]. *)
Definition document_block (count : nat) (document_excerpt : string) : string :=
  "<document>" +:+ "<document_id>" +:+ pretty (count + 1)%nat +:+ "</document_id>"
  +:+ "<document_excerpt>" +:+ document_excerpt +:+ "</document_excerpt>"
  +:+ "</document>".

(** [for count, document in enumerate(documents): context += ..]. *)
Fixpoint format_loop (context : string) (count : nat) (documents : list Hit)
  : result string :=
  match documents with
  | [] => Ok context
  | document :: rest =>
      match _source document !! "source" with
      | Some document_excerpt =>
          format_loop (context +:+ document_block count document_excerpt) (S count) rest
      | None => Raise KeyError
      end
  end.

(** The last line of [format_context]. *)
Definition sanitize (context : string) : string :=
  replace_char double_quote single_quote
    (replace_char backslash slash (remove_non_printable context)).

(** [ClaudeContextFormatter.format_context].  The aliases are applied
    to the caller's dictionaries in place; the second component is
    the caller's documents as the call leaves them. *)
Definition format_context (documents : list Hit) : M (string * list Hit) :=
  documents ← replace_metadata_keys documents;
  context ← lift (format_loop "<documents>" 0 documents);
  let context := context +:+ "</documents>" in
  mret (sanitize context, documents).

End with_world.
End ClaudeContextFormatter.

(** ** [kb_documents_retriever/ep_documents_retriever.py] and the methods
       it inherits from [ep_nlp/opensearch_documents_retriever.py] *)

Module EpDocumentsRetriever.

(** One iteration of the loop of [__get_distinct_values]:
<<
    _id = d.get('_id')
    if _id not in seen:
        seen.add(_id)
        unique.append(d)
>> *)
Definition distinct_step (st : gset (option string) * list Hit) (d : Hit)
  : gset (option string) * list Hit :=
  let '(seen, unique) := st in
  if decide (_id d ∈ seen) then (seen, unique)
  else ({[ _id d ]} ∪ seen, unique ++ [d]).

(** [EpDocumentsRetriever.__get_distinct_values]. *)
Definition get_distinct_values (lst : list Hit) : list Hit :=
  snd (foldl distinct_step (∅, []) lst).

(** Step 7 of [retrieve_context]:
    [combined_results = results_knn + results_bm25] followed by the
    deduplication. *)
Definition merge (results_knn results_bm25 : list Hit) : list Hit :=
  get_distinct_values (results_knn ++ results_bm25).

(** The hits of [lst] whose identity is neither in [seen] nor carried by
    an earlier hit of [lst]; the loop computes exactly this. *)
Fixpoint fresh_from (seen : gset (option string)) (lst : list Hit) : list Hit :=
  match lst with
  | [] => []
  | d :: rest =>
      if decide (_id d ∈ seen) then fresh_from seen rest
      else d :: fresh_from ({[ _id d ]} ∪ seen) rest
  end.


(** The identities carried by a list of hits. *)
Definition ids (lst : list Hit) : gset (option string) := list_to_set (_id <$> lst).

Section with_world.
Context (w : World) (cfg : Config).

(** [if self.rerank_model_id:] holds for a non-empty identifier. *)
Definition rerank_enabled : option string :=
  match rerank_model_id cfg with
  | Some model_id => if String.eqb model_id "" then None else Some model_id
  | None => None
  end.

(** [opensearch_client.search] between the two [except] clauses both
    search methods share. *)
Definition guarded_search (body : search_body) : M (list Hit) :=
  try_except
    (call (Search body) (λ t, opensearch_search w t body))
    (λ e, match e with
          | ClientError => Some (raise ClientError)
          | ParamValidationError => Some (raise ValueError)
          | _ => None
          end).

(** [OpensearchDocumentsRetriever.perform_vector_search]. *)
Definition perform_vector_search (vector : list Q) (number_of_results : nat)
    (include_fields : option (list string)) : M (list Hit) :=
  guarded_search (KnnBody number_of_results vector include_fields).

(** [EpDocumentsRetriever.perform_bm25_search]. *)
Definition perform_bm25_search (query : json) (number_of_results : nat)
    (include_fields : option (list string)) : M (list Hit) :=
  guarded_search (Bm25Body number_of_results query include_fields).

(** [EpDocumentsRetriever.translate_to_french]. *)
Definition translate_to_french (query : string) : M (option json) :=
  Translator.translate w cfg query (Some "fr").

(** [OpensearchDocumentsRetriever.preprocess_query]. *)
Definition preprocess_query (query : json) : M json :=
  query_elements ← QueryAnalyzer.analyze_query w cfg query (Some "analyze_query");
  match query_elements with
  | Some elements =>
      keywords ← lift (Py.join ", " (search_elements elements));
      mret (JStr keywords)
  | None => mret query
  end.

(** Step 4 of [retrieve_context]:
<<
    translated_query = query
    try:
        translation_result = self.translate_to_french(query)
        translated_query = translation_result.get("content", [{}])[0].get("text", query)
    except Exception as e:
        logger.warning(..)
>> *)
Definition translated_query_of (query : string) : M json :=
  try_except
    (translation_result ← translate_to_french query;
     lift (match translation_result with
           | None => Raise AttributeError
           | Some answer =>
               content ← Py.get answer "content" (JArr [JObj []]);
               first ← Py.getitem_int content 0;
               Py.get first "text" (JStr query)
           end))
    (λ _, Some (_ ← log (LogWarning "Query translation failed, using original query. Error: ");
                mret (JStr query))).

(** Steps 5 to 8 of [retrieve_context], from the translated query on. *)
Definition search_and_rank (translated_query : json) (results_knn : list Hit)
    (include_fields : option (list string)) : M (list Hit) :=
  query_entities ← preprocess_query translated_query;
  results_bm25 ← perform_bm25_search query_entities 5 include_fields;
  let distinct_results := merge results_knn results_bm25 in
  match rerank_enabled with
  | Some model_id =>
      ReRanker.rerank_results w model_id translated_query distinct_results model_id
  | None => mret distinct_results
  end.

(** [EpDocumentsRetriever.retrieve_context]. *)
Definition retrieve_context (query : string) (include_fields : option (list string))
  : M (list Hit) :=
  query_embeddings ← call (GetEmbeddings query) (λ t, text2Vec_get_embeddings w t query);
  let num_results := match rerank_enabled with Some _ => 20%nat | None => 8%nat end in
  results_knn ← perform_vector_search query_embeddings num_results include_fields;
  translated_query ← translated_query_of query;
  search_and_rank translated_query results_knn include_fields.

End with_world.
End EpDocumentsRetriever.

(** ** [ep_nlp/chatbot.py] *)

Module Chatbot.
Section with_world.
Context (w : World) (cfg : Config).

(** The collaborators the constructor instantiates from the classes
    named in the configuration. *)
Context (context_retriever : string → option (list string) → M (list Hit)).
Context (context_formatter : list Hit → M (string * list Hit)).

(** [query_analysis_elements.reformulated_query]: attribute access,
    which [None] does not support. *)
Definition reformulated_query_of (query_analysis_elements : option QueryIntent)
  : result json :=
  match query_analysis_elements with
  | Some elements => Ok (reformulated_query elements)
  | None => Raise AttributeError
  end.

(** Lines 138 to 148 of [generate_answer_text]. *)
Definition invoke_for_answer (request_body : json) : M json :=
  try_except
    (BedrockHelper.invoke_model w request_body None)
    (λ e, match e with
          | ParamValidationError => Some (raise ValueError)
          | ClientError =>
              Some (_ ← log (LogError "Client error generating answer: ");
                    mret (JObj []))
          | _ => None
          end).

(** Lines 122 to 135 of [generate_answer_text]: from the formatted
    context to the request body. *)
Definition request_for_answer (question : string) (context : string)
    (instructions : list json) : M json :=
  query_analysis_elements ← QueryAnalyzer.get_query_intent w cfg question;
  _ ← log (LogWarning "WARNING WARNING");
  _ ← log (LogWarning "WHAT EXACTLY IS INSIDE context: ");
  _ ← log (LogWarning "WHAT EXACTLY IS INSIDE query_analysis_elements: ");
  reformulated ← lift (reformulated_query_of query_analysis_elements);
  BedrockHelper.build_request_body w cfg (Some "answer_question")
    [JStr context; reformulated] (Some instructions).

(** [Chatbot.generate_answer_text]; the second component is the
    caller's documents after the call (the formatter renames fields
    of the very dictionaries it is given). *)
Definition generate_answer_text (question : string) (documents : list Hit)
    (instructions : list json) : M (json * list Hit) :=
  '(context, documents) ← context_formatter documents;
  request_body ← request_for_answer question context instructions;
  answer ← invoke_for_answer request_body;
  mret (answer, documents).

(** [Chatbot.do_not_nswer]. *)
Definition do_not_nswer (question : string) : json :=
  JObj [("content", JArr [JObj [("text", JStr "Cannot answer to this question.")]])].

Definition param (input_params : gmap string string) (key : string) : result string :=
  match input_params !! key with
  | Some value => Ok value
  | None => Raise KeyError
  end.

(** [Chatbot.answer_question]. *)
Definition answer_question (input_params : gmap string string) : M (json * list Hit) :=
  question ← lift (param input_params "question");
  instructions ← lift (param input_params "instructions");
  allowed ← QueryAnalyzer.is_query_allowed w cfg question;
  if (allowed : bool) then
    retrieved_documents ← context_retriever question (Some (ndx_custom_fields cfg));
    generate_answer_text question (reverse retrieved_documents) [JStr instructions]
  else
    mret (do_not_nswer question, []).

End with_world.

(** The chatbot as deployed with the hybrid retriever and the Claude
    formatter. *)
Definition ep_answer_question (w : World) (cfg : Config)
  : gmap string string → M (json * list Hit) :=
  answer_question w cfg
    (EpDocumentsRetriever.retrieve_context w cfg)
    (ClaudeContextFormatter.format_context w cfg).

End Chatbot.

(** ** Concrete environments

    Stand-ins for the built-ins and the services, used to run the
    pipeline on concrete requests. *)

Module Fixture.

(** A decoder that knows the listed texts and rejects every other. *)
Definition loads_table (known : list (string * json)) (s : string) : option json :=
  Py.assoc s known.

Definition text_of (j : json) : string :=
  match j with
  | JStr s => s
  | _ => "?"
  end.

(** A formatter that appends the values to the template. *)
Definition append_format (template : string) (values : list json) : result string :=
  Ok (template +:+ String.concat "|" (text_of <$> values)).

Definition ascii_printable (c : ascii) : bool :=
  (32 <=? nat_of_ascii c)%nat && (nat_of_ascii c <? 127)%nat.

Definition template (name : string) : PromptTemplate :=
  mkPromptTemplate ("system:" +:+ name)
    [("system", JStr ""); ("messages", JArr [JObj [("role", JStr "user")]])]
    (name +:+ ":").

Definition templates : gmap string PromptTemplate :=
  list_to_map ((λ name, (name, template name))
                 <$> ["get_query_intent"; "analyze_query"; "answer_question"; "translate"]).

Definition hit (name : string) (score : Q) : Hit := mkHit (Some name) score ∅.

(** The hits of scenario A of the specification. *)
Definition scenario_knn : list Hit := [hit "A" 0.9%Q; hit "B" 0.8%Q; hit "C" 0.7%Q].
Definition scenario_bm25 : list Hit := [hit "C" 5.0%Q; hit "D" 4.0%Q].

(** A hit with a text chunk and a source excerpt. *)
Definition doc (name : string) (text : string) : Hit :=
  mkHit (Some name) 1
    (<["AMAZON_BEDROCK_TEXT_CHUNK" := text]> (<["source" := text]> ∅)).

(** The number of model invocations made so far. *)
Definition is_invocation (e : event) : bool :=
  match e with
  | InvokeModel _ _ => true
  | _ => false
  end.

Definition invocations (t : list event) : nat := length (filter is_invocation t).

(** The texts the stand-in decoder knows. *)
Definition known_texts : list (string * json) :=
  [("blocked", JObj [("amazon-bedrock-guardrailAction", JStr "INTERVENED")]);
   ("passed", JObj [("amazon-bedrock-guardrailAction", JStr "NONE")]);
   ("reply", JObj [("content", JArr [JObj [("text", JStr "intent")]])]);
   ("intent", JObj [("intent", JStr "answer");
                    ("reformulated_query", JStr "better question")]);
   ("garbled", JObj [("content", JArr [JObj [("text", JStr "not json")]])])].

Definition two_docs (body : search_body) : list Hit :=
  match body with
  | KnnBody _ _ _ => [doc "A" "alpha"; doc "B" "beta"]
  | Bm25Body _ _ _ => [doc "B" "beta"; doc "C" "gamma"]
  end.

(** An environment given by the answer of the model service; the
    other services always succeed. *)
Definition world_of
    (model : list event → json → option (string * string) → result string) : World :=
  mkWorld (loads_table known_texts) append_format ascii_printable
    model
    (λ _ _, Ok [0.5%Q])
    (λ _ body, Ok (two_docs body))
    (λ _ _ _ _, Ok "ranking").

(** The guardrail intervenes on every probe. *)
Definition world_blocking : World :=
  world_of (λ _ _ guardrail, match guardrail with
                             | Some _ => Ok "blocked"
                             | None => Ok "reply"
                             end).

(** The guardrail lets every probe pass and the model replies. *)
Definition world_passing : World :=
  world_of (λ _ _ guardrail, match guardrail with
                             | Some _ => Ok "passed"
                             | None => Ok "reply"
                             end).

Definition cfg_guarded : Config :=
  mkConfig (Some "g1") None (Some "translate") None [] (Some []) templates.

Definition cfg_unguarded : Config :=
  mkConfig None None (Some "translate") None [] (Some []) templates.

Definition request : gmap string string :=
  <["question" := "what?"]> (<["instructions" := "be brief"]> ∅).

(** The model replies to the first [n] invocations and fails with [e]
    from then on. *)
Definition world_failing_after (n : nat) (e : exn) : World :=
  world_of (λ t _ _, if (invocations t <? n)%nat then Ok "reply" else Raise e).

(** The model replies with a text block that is not JSON. *)
Definition world_garbled : World := world_of (λ _ _ _, Ok "garbled").

(** The first model invocation fails with a client error; the later
    ones are answered. *)
Definition world_failing_first : World :=
  world_of (λ t _ _, if (invocations t =? 0)%nat then Raise ClientError else Ok "reply").

(** The hits and the ranking of scenario B of the specification. *)
Definition scenario_hits : list Hit :=
  [doc "A" "alpha"; doc "B" "beta"; doc "C" "gamma"; doc "D" "delta"].

Definition scenario_ranking : list (Z * Q) :=
  [(0, 0.9%Q); (1, 0.85%Q); (2, 0.3%Q); (3, 0.1%Q)]%Z.

(** The rerank service answers with the ranking of scenario B. *)
Definition world_ranking : World :=
  mkWorld (loads_table [("ranking", ReRanker.rerank_response scenario_ranking)])
  append_format ascii_printable
  (λ _ _ _, Ok "reply") (λ _ _, Ok [0.5%Q]) (λ _ body, Ok (two_docs body))
  (λ _ _ _ _, Ok "ranking").

(** The first entry of the response carries no relevance score. *)
Definition world_unscored : World :=
  mkWorld (loads_table [("ranking", JObj [("results", JArr [JObj [("index", JInt 0)]])])])
  append_format ascii_printable
  (λ _ _ _, Ok "reply") (λ _ _, Ok [0.5%Q]) (λ _ body, Ok (two_docs body))
  (λ _ _ _ _, Ok "ranking").

(** The three hits the stand-in searches merge to, best first. *)
Definition three_docs : list Hit := [doc "A" "alpha"; doc "B" "beta"; doc "C" "gamma"].

(** The context the formatter makes of [three_docs] reversed. *)
Definition three_docs_context : string :=
  "<documents>"
  +:+ "<document><document_id>1</document_id><document_excerpt>gamma</document_excerpt></document>"
  +:+ "<document><document_id>2</document_id><document_excerpt>beta</document_excerpt></document>"
  +:+ "<document><document_id>3</document_id><document_excerpt>alpha</document_excerpt></document>"
  +:+ "</documents>".

End Fixture.

(** ** Further concrete environments *)

Module Cases.

(** An environment given by the texts the decoder knows and by the
    answer of the model service. *)
Definition world_with (known : list (string * json))
    (model : list event → json → option (string * string) → result string) : World :=
  mkWorld (Fixture.loads_table known) Fixture.append_format Fixture.ascii_printable
    model
    (λ _ _, Ok [0.5%Q])
    (λ _ body, Ok (Fixture.two_docs body))
    (λ _ _ _ _, Ok "ranking").

(** The model answers the keyword analysis with two search terms. *)
Definition world_keywords : World :=
  world_with
    [("reply", JObj [("content", JArr [JObj [("text", JStr "terms")]])]);
     ("terms", JObj [("search_elements", JArr [JStr "treaty"; JStr "Maastricht"])])]
    (λ _ _ _, Ok "reply").

(** The model answers with a text block that carries no search terms. *)
Definition world_no_terms : World :=
  world_with
    [("reply", JObj [("content", JArr [JObj [("text", JStr "terms")]])]);
     ("terms", JObj [("query_target_type", JStr "answer")])]
    (λ _ _ _, Ok "reply").

(** The model answers with an empty list of content blocks. *)
Definition world_silent : World :=
  world_with [("reply", JObj [("content", JArr [])])] (λ _ _ _, Ok "reply").

(** The model answers the first [n] invocations and reports an error in
    the response body from then on. *)
Definition world_error_field (n : nat) : World :=
  world_with
    (("failed", JObj [("error", JStr "throttled")]) :: Fixture.known_texts)
    (λ t _ _, if (Fixture.invocations t <? n)%nat then Ok "reply" else Ok "failed").

(** The guardrail probe fails with [e]. *)
Definition world_guard_down (e : exn) : World :=
  world_with Fixture.known_texts
    (λ _ _ guardrail, match guardrail with
                      | Some _ => Raise e
                      | None => Ok "reply"
                      end).

(** The guardrail probe is answered with a text that is not JSON. *)
Definition world_guard_garbled : World :=
  world_with Fixture.known_texts
    (λ _ _ guardrail, match guardrail with
                      | Some _ => Ok "static"
                      | None => Ok "reply"
                      end).

End Cases.

(** ** Further documents *)

Module Samples.

(** An excerpt with a backslash and a double quote in it. *)
Definition messy_text : string :=
  "a" +:+ String ClaudeContextFormatter.backslash
            (String ClaudeContextFormatter.double_quote "b").

Definition messy_doc : Hit := Fixture.doc "M" messy_text.

(** The context the formatter makes of [messy_doc]. *)
Definition messy_context : string :=
  "<documents><document><document_id>1</document_id>"
  +:+ "<document_excerpt>a/'b</document_excerpt></document></documents>".

(** A template whose request body has a system entry and two messages. *)
Definition chat_template : PromptTemplate :=
  mkPromptTemplate "be helpful"
    [("system", JStr ""); ("max_tokens", JInt 100);
     ("messages", JArr [JObj [("role", JStr "user"); ("content", JStr "")];
                        JObj [("role", JStr "assistant")]])]
    "question:".

Definition cfg_chat : Config :=
  mkConfig None None None None [] (Some []) (<["chat" := chat_template]> ∅).


(** The configuration with an empty rerank model identifier, and with a
    named one. *)
Definition cfg_rerank_empty : Config :=
  mkConfig (Some "g1") None (Some "translate") (Some "") [] (Some []) Fixture.templates.

Definition cfg_rerank : Config :=
  mkConfig (Some "g1") None (Some "translate") (Some "model") [] (Some [])
    Fixture.templates.

(** A text of 200 characters. *)
Definition long_text : string := String.concat "" (replicate 20 "0123456789").


(** A document with a source address and a file path. *)
Definition filed (name address path : string) : Hit :=
  mkHit (Some name) 1
    (<["x-amz-bedrock-kb-source-uri" := address]> (<["ffpath" := path]> ∅)).

Definition report : Hit := filed "R" "s3://docs/2024/report.pdf" "2024/report.pdf".
Definition minutes : Hit := filed "N" "s3://docs/2024/minutes.pdf" "2024/minutes.pdf".

(** An Athena result set: the header and two rows, both for [report]. *)
Definition language_rows : list (list string) :=
  [["document_ffpath"; "ffpath"; "longtitle"; "ididioma"];
   ["2024/report.pdf"; "2024/report.pdf"; "Rapport"; "fr"];
   ["2024/report.pdf"; "2024/report_en.pdf"; "Report"; "en"]].

End Samples.

(** ** Python string operations *)

Module PyStr.

(** [s[:n]]. *)
Fixpoint take (n : nat) (s : string) : string :=
  match n, s with
  | S k, String c rest => String c (take k rest)
  | _, _ => EmptyString
  end.

(** [s.split(sep)] for a separator that is not empty: [skip] counts the
    characters of a separator just found that are still to be passed. *)
Fixpoint split_from (sep : string) (skip : nat) (current : string) (s : string)
  : list string :=
  match s with
  | EmptyString => [current]
  | String c rest =>
      match skip with
      | S k => split_from sep k current rest
      | O =>
          if String.prefix sep s
          then current :: split_from sep (String.length sep - 1) EmptyString rest
          else split_from sep 0 (current +:+ String c EmptyString) rest
      end
  end.

Definition split (sep s : string) : list string := split_from sep 0 EmptyString s.

(** [s.replace(old, new)] for an [old] that is not empty. *)
Fixpoint replace_from (old new : string) (skip : nat) (s : string) : string :=
  match s with
  | EmptyString => EmptyString
  | String c rest =>
      match skip with
      | S k => replace_from old new k rest
      | O =>
          if String.prefix old s
          then new +:+ replace_from old new (String.length old - 1) rest
          else String c (replace_from old new 0 rest)
      end
  end.

Definition replace (old new s : string) : string := replace_from old new 0 s.

(** [sub in s]. *)
Fixpoint contains (sub s : string) : bool :=
  String.prefix sub s ||
  match s with
  | EmptyString => false
  | String _ rest => contains sub rest
  end.

(** [l[-1]]. *)
Definition last_item {A} (l : list A) : result A :=
  match last l with
  | Some x => Ok x
  | None => Raise IndexError
  end.

End PyStr.

(** ** [ep_nlp/opensearch_documents_retriever.py]: the pure vector
       retriever *)

Module OpensearchDocumentsRetriever.
Section with_world.
Context (w : World) (cfg : Config).

(** [OpensearchDocumentsRetriever.retrieve_context]: the number of
    candidates is chosen by the truth of [rerank_model_id], the reranking
    by its not being [None]. *)
Definition retrieve_context (query : string) (include_fields : option (list string))
  : M (list Hit) :=
  query_embeddings ← call (GetEmbeddings query) (λ t, text2Vec_get_embeddings w t query);
  let num_results :=
    match EpDocumentsRetriever.rerank_enabled cfg with
    | Some _ => 25%nat
    | None => 8%nat
    end in
  results ← EpDocumentsRetriever.perform_vector_search w query_embeddings num_results
              include_fields;
  match rerank_model_id cfg with
  | Some model_id => ReRanker.rerank_results w model_id (JStr query) results model_id
  | None => mret results
  end.

End with_world.
End OpensearchDocumentsRetriever.

(** ** [ep_nlp/translator.py]: language detection *)

Module LanguageDetector.
Section with_world.
Context (w : World) (cfg : Config).

(** [Translator.detect_language]; [template_id] is
    [cached_config["ai"]["prompt_detect_language_template_id"]], [None]
    when the key is absent.  The error record is the exception itself,
    so its recorded text is empty. *)
Definition detect_language (template_id : option string) (text : string)
  : M (option json) :=
  match template_id with
  | None => raise KeyError
  | Some id =>
      request_body ← BedrockHelper.build_request_body w cfg (Some id)
                       [JStr (PyStr.take 200 text)] None;
      try_except
        (answer ← BedrockHelper.invoke_model w request_body None;
         mret (Some answer))
        (λ e, match e with
              | ClientError => Some (_ ← log (LogError ""); mret None)
              | ParamValidationError => Some (raise ValueError)
              | _ => None
              end)
  end.

End with_world.
End LanguageDetector.

(** ** [ep_nlp/generic_documents_list_formatter.py] and
       [ep_documents_list_formatter/ep_documents_list_formatter.py] *)

(** A record of [format_lambda_response]: [{"id": .., "fields": {..}}]. *)
Record AthenaRecord := mkAthenaRecord {
  record_id : nat;
  record_fields : gmap string string
}.

Module DocumentsListFormatter.

(** [pieces[-1]] for the list [split] returns, which is never empty. *)
Definition last_piece (pieces : list string) : string := default EmptyString (last pieces).

(** [document_source.split("/")[-1]]. *)
Definition display_title_of (document_source : string) : string :=
  last_piece (PyStr.split "/" document_source).

Definition with_display_title (document : Hit) (document_source : string) : Hit :=
  mkHit (_id document) (_score document)
    (<["display_title" := display_title_of document_source]> (_source document)).

(** The loop of [__add_display_title_to_documents], which writes into the
    documents it is given: the documents as the loop leaves them, and
    whether it ran to the end or stopped at a document without
    ['x-amz-bedrock-kb-source-uri']. *)
Fixpoint title_documents (documents : list Hit) : list Hit * bool :=
  match documents with
  | [] => ([], true)
  | document :: rest =>
      match _source document !! "x-amz-bedrock-kb-source-uri" with
      | Some document_source =>
          let '(rest', complete) := title_documents rest in
          (with_display_title document document_source :: rest', complete)
      | None => (document :: rest, false)
      end
  end.

(** [__add_display_title_to_documents] of both formatters: the
    [KeyError] is caught and logged, and the caller goes on with the
    documents as they are. *)
Definition add_display_title_to_documents (documents : list Hit) : M (list Hit) :=
  let '(documents', complete) := title_documents documents in
  if (complete : bool) then mret documents'
  else
    _ ← log (LogWarning "Missing document field. ");
    mret documents'.

(** The inner loop of [format_lambda_response]:
    [fields.update({column_names[column_counter]: value["VarCharValue"]})]. *)
Fixpoint row_fields (column_names : list string) (column_counter : nat)
    (cells : list string) (fields : gmap string string) : result (gmap string string) :=
  match cells with
  | [] => Ok fields
  | value :: rest =>
      match column_names !! column_counter with
      | Some name => row_fields column_names (S column_counter) rest (<[name := value]> fields)
      | None => Raise IndexError
      end
  end.

(** The outer loop of [format_lambda_response]. *)
Fixpoint records_from (column_names : list string) (record_counter : nat)
    (rows : list (list string)) : result (list AthenaRecord) :=
  match rows with
  | [] => Ok []
  | row :: rest =>
      fields ← row_fields column_names 0 row ∅;
      records ← records_from column_names (S record_counter) rest;
      Ok (mkAthenaRecord record_counter fields :: records)
  end.

(** [EpDocumentsListFormatter.format_lambda_response]: a row is the list
    of the [VarCharValue] of its cells, the first row is the header; the
    result is the status code and the records. *)
Definition format_lambda_response (athena_query_result : list (list string))
  : result (Z * list AthenaRecord) :=
  match athena_query_result with
  | [] => Raise IndexError
  | headers :: data =>
      records ← records_from headers 0 data;
      Ok (200%Z, records)
  end.

Definition field (record : AthenaRecord) (name : string) : result string :=
  match record_fields record !! name with
  | Some value => Ok value
  | None => Raise KeyError
  end.

Definition ffpath_of (document : Hit) : result string :=
  match _source document !! "ffpath" with
  | Some path => Ok path
  | None => Raise KeyError
  end.

(** The comprehension of [__set_language_versions]: the language and the
    path of every record made for [doc_ffpath]. *)
Fixpoint matching_versions (doc_ffpath : string) (lvs : list AthenaRecord)
  : result (list (string * string)) :=
  match lvs with
  | [] => Ok []
  | lv :: rest =>
      document_ffpath ← field lv "document_ffpath";
      if String.eqb doc_ffpath document_ffpath then
        lang ← field lv "ididioma";
        lv_ffpath ← field lv "ffpath";
        others ← matching_versions doc_ffpath rest;
        Ok ((lang, lv_ffpath) :: others)
      else matching_versions doc_ffpath rest
  end.

Section with_athena.
(** [EpAthenaThinWrapper.execute_query] on the query made for the given
    paths: the rows of the result set, [None], or an exception. *)
Context (athena : list string → result (option (list (list string)))).

(** [__get_language_versions]. *)
Definition get_language_versions (ffpaths : list string) : M (list AthenaRecord) :=
  match ffpaths with
  | [] => mret []
  | _ :: _ =>
      match athena ffpaths with
      | Ok (Some rows) =>
          match format_lambda_response rows with
          | Ok (status, records) =>
              if (status =? 200)%Z then mret records
              else
                _ ← log (LogError "Athena query failed: ");
                mret []
          | Raise _ =>
              _ ← log (LogError "Error querying Athena");
              mret []
          end
      | Ok None => mret []
      | Raise _ =>
          _ ← log (LogError "Error querying Athena");
          mret []
      end
  end.

(** [__set_language_versions]: each document with the value written
    under ['language_versions']. *)
Fixpoint set_language_versions (documents : list Hit) (lvs : list AthenaRecord)
  : M (list (Hit * list (string * string))) :=
  match documents with
  | [] => mret []
  | document :: rest =>
      doc_ffpath ← lift (ffpath_of document);
      found ← lift (matching_versions doc_ffpath lvs);
      document_language_versions ←
        match found with
        | [] =>
            _ ← log (LogWarning "No language versions found for ");
            mret [("fr", doc_ffpath)]
        | _ :: _ => mret found
        end;
      others ← set_language_versions rest lvs;
      mret ((document, document_language_versions) :: others)
  end.

(** [__add_language_versions]. *)
Definition add_language_versions (documents : list Hit)
  : M (list (Hit * list (string * string))) :=
  match documents with
  | [] => mret []
  | _ :: _ =>
      ffpaths ← lift (mapM ffpath_of documents);
      language_versions ← get_language_versions ffpaths;
      set_language_versions documents language_versions
  end.

(** [EpDocumentsListFormatter.format] followed by [get_documents]: the
    documents with their display titles, each with its language
    versions. *)
Definition format (documents : list Hit) : M (list (Hit * list (string * string))) :=
  versions ← add_language_versions documents;
  titled ← add_display_title_to_documents documents;
  mret (zip titled (snd <$> versions)).

End with_athena.
End DocumentsListFormatter.

(** ** [kb_documents_retriever/knowledgebase_documents_retriever.py] *)

(** A document returned by the knowledge-base retriever: the text and,
    in its metadata, the source dictionary and the score (each [None]
    when the key is absent). *)
Record KbDocument := mkKbDocument {
  page_content : string;
  source_metadata : option (gmap string string);
  kb_score : option Q
}.

Module KnowledgebaseDocumentsRetriever.

(** One turn of the loop of [convert_docs]. *)
Definition convert_doc (doc : KbDocument) : result Hit :=
  match source_metadata doc with
  | None => Raise KeyError
  | Some source =>
      let source := <["AMAZON_BEDROCK_TEXT_CHUNK" := page_content doc]> source in
      match source !! "x-amz-bedrock-kb-chunk-id" with
      | None => Raise KeyError
      | Some chunk_id =>
          match kb_score doc with
          | None => Raise KeyError
          | Some score => Ok (mkHit (Some chunk_id) score source)
          end
      end
  end.

(** [convert_docs]. *)
Definition convert_docs (docs : list KbDocument) : result (list Hit) :=
  mapM convert_doc docs.

(** [round(x)] for a number: to the nearest integer, to the even one
    when halfway. *)
Definition py_round (x : Q) : Z :=
  let below := Qfloor x in
  let rest := (x - inject_Z below)%Q in
  if Qle_bool rest (1 # 2)
  then (if Qeq_bool rest (1 # 2) then (if Z.even below then below else below + 1)%Z
        else below)
  else (below + 1)%Z.

Section with_world.
Context (w : World) (cfg : Config).
(** [cached_config["local"]["knowledgebase_number_of_results"]], an
    integer. *)
Context (knowledgebase_number_of_results : nat).
(** [AmazonKnowledgeBasesRetriever.invoke] for a query and a number of
    results. *)
Context (knowledge_base : json → Z → result (list KbDocument)).

(** [perform_knn_search]. *)
Definition perform_knn_search (query : json) (max_num_of_results : Z) : result (list Hit) :=
  docs ← knowledge_base query max_num_of_results;
  convert_docs docs.

Definition translation_warning : event :=
  LogWarning "Query translation failed, using original query. Error: ".

(** The [try] block of [retrieve_context]: the translated query and the
    vector hits as its assignments leave them, whether it ran to the end
    or was left by an exception. *)
Definition translate_and_search (query : string) (kkn_max_num_of_results : Z)
  : M (json * list Hit) :=
  try_except
    (translation_result ← EpDocumentsRetriever.translate_to_french w cfg query;
     translated_query ←
       lift (match translation_result with
             | None => Raise AttributeError
             | Some answer =>
                 content ← Py.get answer "content" (JArr [JObj []]);
                 first ← Py.getitem_int content 0;
                 Py.get first "text" (JStr query)
             end);
     try_except
       (results_knn ← lift (perform_knn_search translated_query kkn_max_num_of_results);
        mret (translated_query, results_knn))
       (λ _, Some (_ ← log translation_warning; mret (translated_query, []))))
    (λ _, Some (_ ← log translation_warning; mret (JStr query, []))).

(** Line 133 of [retrieve_context]: the number of results asked of the
    knowledge base. *)
Definition kkn_max_num_of_results : Z :=
  match EpDocumentsRetriever.rerank_enabled cfg with
  | Some _ => py_round (inject_Z (Z.of_nat knowledgebase_number_of_results) * 2.5)%Q
  | None => Z.of_nat knowledgebase_number_of_results
  end.

(** [KnowledgebaseDocumentsRetriever.retrieve_context]. *)
Definition retrieve_context (query : string) (include_fields : option (list string))
  : M (list Hit) :=
  let bm25_max_num_of_results := knowledgebase_number_of_results in
  '(translated_query, results_knn) ← translate_and_search query kkn_max_num_of_results;
  query_entities ← EpDocumentsRetriever.preprocess_query w cfg translated_query;
  results_bm25 ← EpDocumentsRetriever.perform_bm25_search w query_entities
                   bm25_max_num_of_results include_fields;
  let distinct_results := EpDocumentsRetriever.merge results_knn results_bm25 in
  match EpDocumentsRetriever.rerank_enabled cfg with
  | Some model_id =>
      ReRanker.rerank_results w model_id translated_query distinct_results model_id
  | None => mret distinct_results
  end.

End with_world.
End KnowledgebaseDocumentsRetriever.

(** ** [ep_nlp/generic_context_formatter.py] *)

Module GenericContextFormatter.

Definition carriage_return : ascii := ascii_of_nat 13.
Definition form_feed : ascii := ascii_of_nat 12.

(** [s.replace(c, "")] for one character. *)
Definition delete_char (c : ascii) : string → string :=
  ClaudeContextFormatter.string_filter (λ x, negb (Ascii.eqb x c)).

(** The excerpt as the three [replace] calls leave it. *)
Definition clean_excerpt (chunk : string) : string :=
  delete_char form_feed
    (delete_char carriage_return
       (ClaudeContextFormatter.replace_char ClaudeContextFormatter.double_quote
          ClaudeContextFormatter.single_quote chunk)).

Section with_world.
Context (w : World) (cfg : Config).

(** The loop over the custom fields of one document. *)
Fixpoint custom_tags (custom_fields : list string) (source : gmap string string)
    (context : string) : M string :=
  match custom_fields with
  | [] => mret context
  | field_key :: rest =>
      let field_value := default "unknown" (source !! field_key) in
      if String.eqb field_value "unknown" then
        _ ← log (LogWarning "custom field ");
        custom_tags rest source context
      else
        custom_tags rest source
          (context +:+ "<" +:+ field_key +:+ ">" +:+ field_value
                   +:+ "</" +:+ field_key +:+ ">")
  end.

(** The loop over the documents. *)
Fixpoint format_loop (custom_fields : list string) (context : string) (count : nat)
    (documents : list Hit) : M string :=
  match documents with
  | [] => mret context
  | document :: rest =>
      let context :=
        context +:+ "<document>"
                +:+ "<document_id>" +:+ pretty (count + 1)%nat +:+ "</document_id>" in
      context ← custom_tags custom_fields (_source document) context;
      chunk ← lift (ReRanker.text_chunk document);
      format_loop custom_fields
        (context +:+ "<document_excerpt>" +:+ clean_excerpt chunk +:+ "</document_excerpt>"
                 +:+ "</document>")
        (S count) rest
  end.

(** [GenericContextFormatter.format_context]; [env_custom_fields] is the
    environment variable [aoss_ndx_custom_fields], whose text, when set,
    is iterated character by character. *)
Definition format_context (env_custom_fields : option string) (documents : list Hit)
  : M string :=
  let custom_fields :=
    match env_custom_fields with
    | Some text => Py.chars text
    | None => ndx_custom_fields cfg
    end in
  context ← format_loop custom_fields "<documents>" 0 documents;
  mret (ClaudeContextFormatter.replace_char ClaudeContextFormatter.backslash
          ClaudeContextFormatter.slash
          (ClaudeContextFormatter.remove_non_printable w (context +:+ "</documents>"))).

End with_world.
End GenericContextFormatter.

(** ** [lambda_functions/aws_answer_question.py] *)

Module LambdaAnswerQuestion.

(** What [json.dumps] is given at lines 82 and 130; the ['msg'] entries
    are constants. *)
Inductive payload (D : Type) :=
| Uploaded
| Completed (llm_answer : string) (referenced_documents : list D).
Arguments Uploaded {D}.
Arguments Completed {D} llm_answer referenced_documents.

(** [response["body"]] of the module-level [response], which outlives a
    request: the dictionary it starts as, or the text a request stored.
    ['statusCode'] is only ever given 200 and the headers are never
    written. *)
Inductive body (D : Type) :=
| BodyDict (entries : gmap string string)
| BodyText (dumped : payload D).
Arguments BodyDict {D} entries.
Arguments BodyText {D} dumped.

(** [response["body"]["msg"] = msg]. *)
Definition set_msg {D} (response_body : body D) (msg : string) : result (body D) :=
  match response_body with
  | BodyDict entries => Ok (BodyDict (<["msg" := msg]> entries))
  | BodyText _ => Raise TypeError
  end.

Inductive parameter :=
| Found (value : string)
| Missing (key : string)
| NotSubscriptable.

(** [event["queryStringParameters"][key]]; the event maps a key to a
    dictionary of texts or to [None]. *)
Definition query_parameter (event : gmap string (option (gmap string string)))
    (key : string) : parameter :=
  match event !! "queryStringParameters" with
  | None => Missing "queryStringParameters"
  | Some None => NotSubscriptable
  | Some (Some parameters) =>
      match parameters !! key with
      | Some value => Found value
      | None => Missing key
      end
  end.

Definition wrong_input (key : string) : string :=
  "Wrong input param='" +:+ key +:+ "' not set.".

Section with_chatbot.
Context {D : Type}.
(** The construction of the chatbot followed by
    [chat_bot.answer_question], both inside the second [try]. *)
Context (answer_question : gmap string string → M (json * list Hit)).
(** [format] then [get_documents] of the configured list formatter. *)
Context (documents_list_formatter : list Hit → M (list D)).
(** [err.response["Error"]["Message"]] of a [ClientError], [None] when
    the response has no such entry. *)
Context (client_error_message : option string).

(** [lambda_answer_question]: from the body the previous request left to
    the body of the response returned; when an exception leaves the
    handler the body is as it was. *)
Definition lambda_answer_question (response_body : body D)
    (event : gmap string (option (gmap string string))) : M (body D) :=
  let missing key :=
    _ ← log (LogError "Wrong input param=");
    lift (set_msg response_body (wrong_input key)) in
  match query_parameter event "question" with
  | NotSubscriptable => raise TypeError
  | Missing key => missing key
  | Found question =>
      match query_parameter event "instructions" with
      | NotSubscriptable => raise TypeError
      | Missing key => missing key
      | Found instructions =>
          if String.eqb instructions "upload" then mret (BodyText Uploaded)
          else
            answered ←
              try_except
                (outcome ← answer_question
                             (<["question" := question]>
                                (<["instructions" := instructions]> ∅));
                 mret (Some outcome))
                (λ e, match e with
                      | ClientError => Some (mret None)
                      | _ => None
                      end);
            match answered with
            | None =>
                message ← lift (match client_error_message with
                                | Some message => Ok message
                                | None => Raise KeyError
                                end);
                _ ← log (LogError "A client error occurred: ");
                lift (set_msg response_body
                        ("Error=" +:+ message +:+ ", while executing " +:+ question))
            | Some (answer, referenced_documents) =>
                documents ← documents_list_formatter referenced_documents;
                content ← lift (Py.getitem answer "content");
                first ← lift (Py.getitem_int content 0);
                text ← lift (Py.getitem first "text");
                match text with
                | JStr llm_answer =>
                    mret (BodyText
                            (Completed (PyStr.replace "\n        " "\n" llm_answer)
                               documents))
                | _ => raise AttributeError
                end
            end
      end
  end.

End with_chatbot.
End LambdaAnswerQuestion.

(** ** Further requests and documents *)

Module Scenes.

(** A passage of the knowledge base, and one that came without a
    score. *)
Definition passage : KbDocument :=
  mkKbDocument "alpha" (Some {[ "x-amz-bedrock-kb-chunk-id" := "K1" ]}) (Some 0.9%Q).

Definition unscored_passage : KbDocument :=
  mkKbDocument "beta" (Some {[ "x-amz-bedrock-kb-chunk-id" := "K2" ]}) None.

(** One custom field, and a document that holds the text unknown
    under it. *)
Definition cfg_titles : Config :=
  mkConfig None None None None ["title"] (Some []) ∅.

Definition untitled : Hit :=
  mkHit (Some "U") 1
    (<["title" := "unknown"]> (<["AMAZON_BEDROCK_TEXT_CHUNK" := "alpha"]> ∅)).

(** The event of a request with both parameters, of one without
    instructions, and of an upload. *)
Definition api_event : gmap string (option (gmap string string)) :=
  {[ "queryStringParameters" := Some Fixture.request ]}.

Definition event_without_instructions : gmap string (option (gmap string string)) :=
  {[ "queryStringParameters" := Some {[ "question" := "what?" ]} ]}.

Definition upload_event : gmap string (option (gmap string string)) :=
  {[ "queryStringParameters" :=
       Some (<["question" := "what?"]> (<["instructions" := "upload"]> ∅)) ]}.

End Scenes.

(** * Properties *)

(** ** The merge step *)

Section merge_properties.
Import EpDocumentsRetriever.

Implicit Types (seen : gset (option string)) (lst unique : list Hit).

Lemma foldl_distinct_step seen unique lst :
  foldl distinct_step (seen, unique) lst
  = (seen ∪ ids lst, unique ++ fresh_from seen lst).
Proof.
  revert seen unique. induction lst as [|d rest IH]; intros seen unique; simpl.
  - f_equal; [unfold ids; set_solver | by rewrite app_nil_r].
  - destruct (decide (_id d ∈ seen)) as [Hin|Hout]; rewrite IH.
    + f_equal. unfold ids; simpl. set_solver.
    + f_equal; [unfold ids; simpl; set_solver | by rewrite <- app_assoc].
Qed.

Lemma get_distinct_values_fresh lst : get_distinct_values lst = fresh_from ∅ lst.
Proof. unfold get_distinct_values. by rewrite foldl_distinct_step. Qed.

Lemma fresh_from_ids seen lst i :
  i ∈ (_id <$> fresh_from seen lst) ↔ i ∈ (_id <$> lst) ∧ i ∉ seen.
Proof.
  revert seen. induction lst as [|d rest IH]; intros seen; cbn [fresh_from].
  - rewrite fmap_nil, elem_of_nil. tauto.
  - rewrite (fmap_cons _id d rest), (elem_of_cons _ i (_id d)).
    destruct (decide (_id d ∈ seen)) as [Hin|Hout].
    + rewrite IH. split; [tauto|]. intros [[->|?] ?]; [contradiction | tauto].
    + rewrite fmap_cons, elem_of_cons, IH.
      rewrite not_elem_of_union, not_elem_of_singleton.
      split; [intros [->|(? & ? & ?)]; tauto|].
      intros [[->|?] ?]; [tauto|].
      destruct (decide (i = _id d)); tauto.
Qed.

Lemma fresh_from_NoDup seen lst : NoDup (_id <$> fresh_from seen lst).
Proof.
  revert seen. induction lst as [|d rest IH]; intros seen; simpl.
  - constructor.
  - destruct (decide (_id d ∈ seen)) as [Hin|Hout]; [apply IH|].
    rewrite fmap_cons. constructor; [|apply IH].
    rewrite fresh_from_ids. set_solver.
Qed.

Lemma fresh_from_app seen l1 l2 :
  fresh_from seen (l1 ++ l2) = fresh_from seen l1 ++ fresh_from (seen ∪ ids l1) l2.
Proof.
  revert seen. induction l1 as [|d rest IH]; intros seen; simpl.
  - f_equal. unfold ids. set_solver.
  - destruct (decide (_id d ∈ seen)) as [Hin|Hout]; rewrite IH.
    + do 2 f_equal. unfold ids; simpl. set_solver.
    + simpl. do 3 f_equal. unfold ids; simpl. set_solver.
Qed.

Lemma fresh_from_union seen (extra : gset (option string)) lst :
  fresh_from (seen ∪ extra) lst = filter (λ d, _id d ∉ extra) (fresh_from seen lst).
Proof.
  revert seen. induction lst as [|d rest IH]; intros seen; simpl; [done|].
  destruct (decide (_id d ∈ seen)) as [Hin|Hout].
  - rewrite decide_True by set_solver. apply IH.
  - destruct (decide (_id d ∈ extra)) as [Hex|Hnex].
    + rewrite decide_True by set_solver.
      rewrite filter_cons_False by (intros ?; contradiction).
      rewrite <- IH. f_equal. set_solver.
    + rewrite decide_False by set_solver.
      rewrite filter_cons_True by done.
      rewrite <- IH. do 2 f_equal. set_solver.
Qed.

Lemma fresh_from_sublist seen lst : sublist (fresh_from seen lst) lst.
Proof.
  revert seen. induction lst as [|d rest IH]; intros seen; simpl; [constructor|].
  destruct (decide (_id d ∈ seen)); [apply sublist_cons | apply sublist_skip]; apply IH.
Qed.

Lemma fresh_from_first seen lst d :
  d ∈ fresh_from seen lst →
  ∃ before after, lst = before ++ d :: after ∧ _id d ∉ (_id <$> before).
Proof.
  revert seen. induction lst as [|x rest IH]; intros seen; cbn [fresh_from];
    [by intros ?%elem_of_nil|].
  assert (Hstep : ∀ seen', d ∈ fresh_from seen' rest → _id x ∈ seen' →
            ∃ before after, x :: rest = before ++ d :: after ∧ _id d ∉ (_id <$> before)).
  { intros seen' Hd Hx.
    assert (_id d ∉ seen') as Hns.
    { apply (list_elem_of_fmap_2 _id) in Hd. by apply fresh_from_ids in Hd as [_ ?]. }
    destruct (IH _ Hd) as (before & after & -> & Hb).
    exists (x :: before), after. split; [done|].
    rewrite fmap_cons, not_elem_of_cons. split; [congruence | done]. }
  destruct (decide (_id x ∈ seen)) as [Hin|Hout].
  - intros Hd. by apply (Hstep seen).
  - intros [->|Hd]%elem_of_cons.
    + exists [], rest. split; [done | rewrite fmap_nil; apply not_elem_of_nil].
    + apply (Hstep _ Hd). apply elem_of_union_l, elem_of_singleton. done.
Qed.

(** C1.  For all vector hits and lexical hits, the merged list carries
    every identity of the concatenation exactly once, is the
    deduplicated vector hits followed by the deduplicated lexical hits
    whose identity no vector hit carries, keeps the surviving hits in
    their original relative order, and keeps of each identity the first
    hit of the vector-then-lexical concatenation. *)
Theorem merge_distinct_vector_first (results_knn results_bm25 : list Hit) :
  let merged := merge results_knn results_bm25 in
  NoDup (_id <$> merged)
  ∧ (∀ i, i ∈ (_id <$> merged) ↔ i ∈ (_id <$> (results_knn ++ results_bm25)))
  ∧ merged = get_distinct_values results_knn
             ++ filter (λ d, _id d ∉ (_id <$> results_knn))
                       (get_distinct_values results_bm25)
  ∧ sublist merged (results_knn ++ results_bm25)
  ∧ (∀ d, d ∈ merged →
       ∃ before after, results_knn ++ results_bm25 = before ++ d :: after
                       ∧ _id d ∉ (_id <$> before)).
Proof.
  cbv zeta. unfold merge. rewrite !get_distinct_values_fresh.
  repeat split.
  - apply fresh_from_NoDup.
  - intros Hi. by apply fresh_from_ids in Hi as [? _].
  - intros Hi. apply fresh_from_ids. split; [done | apply not_elem_of_empty].
  - rewrite fresh_from_app. f_equal.
    rewrite fresh_from_union.
    apply list_filter_iff. intros d. unfold ids.
    by rewrite elem_of_list_to_set.
  - apply fresh_from_sublist.
  - apply fresh_from_first.
Qed.

(** Scenario A of the specification. *)
Example merge_scenario_A :
  _id <$> merge Fixture.scenario_knn Fixture.scenario_bm25
  = [Some "A"; Some "B"; Some "C"; Some "D"]
  ∧ merge Fixture.scenario_knn Fixture.scenario_bm25
    = Fixture.scenario_knn ++ [Fixture.hit "D" 4.0%Q].
Proof. split; vm_compute; reflexivity. Qed.

End merge_properties.

(** ** Running a computation step by step *)

Section monad_steps.
Context {A B : Type}.
Implicit Types (m : M A) (f : A → M B) (t : list event).

Lemma bind_ok m f t a t' : m t = (Ok a, t') → (m ≫= f) t = f a t'.
Proof. intros H. unfold mbind, M_bind, bind. by rewrite H. Qed.

Lemma bind_raise m f t e t' : m t = (Raise e, t') → (m ≫= f) t = (Raise e, t').
Proof. intros H. unfold mbind, M_bind, bind. by rewrite H. Qed.

Lemma bind_lift_ok (r : result A) f t a : r = Ok a → (lift r ≫= f) t = f a t.
Proof. by intros ->. Qed.

Lemma bind_inv m f t (b : B) t' :
  (m ≫= f) t = (Ok b, t') → ∃ a t1, m t = (Ok a, t1) ∧ f a t1 = (Ok b, t').
Proof.
  unfold mbind, M_bind, bind. destruct (m t) as [[a|e] t1]; [eauto | discriminate].
Qed.

End monad_steps.

Lemma bind_log {B} (e : event) (f : unit → M B) t : (log e ≫= f) t = f tt (t ++ [e]).
Proof. reflexivity. Qed.

Lemma try_except_caught {A} (m : M A) h t e t' k :
  m t = (Raise e, t') → h e = Some k → try_except m h t = k t'.
Proof. intros H Hh. unfold try_except. by rewrite H, Hh. Qed.

(** ** The guardrail check *)

Section guardrail.
Import QueryAnalyzer.
Context (w : World) (cfg : Config).

(** An identifier is configured when the key is present and is not the
    placeholder the lookup defaults to. *)
Lemma guardrail_id_configured gid :
  bedrock_guardrail_id cfg = Some gid → gid ≠ "not_found" →
  String.eqb (default "not_found" (bedrock_guardrail_id cfg)) "not_found" = false.
Proof. intros -> Hne. simpl. by apply String.eqb_neq. Qed.

(** C6.  Without a configured guardrail identifier the check answers
    true after logging one warning and calls no service.  With one, and
    a moderation response that parses to a dictionary, it sends one
    probe and answers false exactly when the action field is the
    string INTERVENED. *)
Theorem is_query_allowed_spec (query : string) (t : list event) :
  (bedrock_guardrail_id cfg = None →
     is_query_allowed w cfg query t
     = (Ok true, t ++ [LogWarning "Guardrail not set. User query not checked."]))
  ∧ (∀ gid raw fields,
       bedrock_guardrail_id cfg = Some gid → gid ≠ "not_found" →
       let guardrail := Some (gid, default "DRAFT" (bedrock_guardrail_version cfg)) in
       bedrock_rt_invoke_model w t (guardrail_probe query) guardrail = Ok raw →
       json_loads w raw = Some (JObj fields) →
       ∃ allowed,
         is_query_allowed w cfg query t
         = (Ok allowed, t ++ [InvokeModel (guardrail_probe query) guardrail])
         ∧ (allowed = false
            ↔ Py.assoc "amazon-bedrock-guardrailAction" fields = Some (JStr "INTERVENED"))).
Proof.
  split.
  - intros Hnone. unfold is_query_allowed. rewrite Hnone. reflexivity.
  - intros gid raw fields Hgid Hne guardrail Hraw Hloads.
    unfold is_query_allowed. rewrite (guardrail_id_configured gid Hgid Hne).
    rewrite Hgid. cbn [default from_option id].
    unfold BedrockHelper.invoke_model_response, call, mbind, M_bind, bind at 1.
    fold guardrail. rewrite Hraw.
    unfold Py.loads. rewrite Hloads. cbn.
    eexists. split; [reflexivity|].
    destruct (Py.assoc "amazon-bedrock-guardrailAction" fields) as [[| | | |s| |]|]; cbn;
      try (split; [discriminate | congruence]).
    destruct (String.eqb_spec s "INTERVENED") as [->|Hs]; cbn.
    + split; done.
    + split; [discriminate | congruence].
Qed.

End guardrail.

Lemma is_query_allowed_spec_witness :
  QueryAnalyzer.is_query_allowed Fixture.world_blocking Fixture.cfg_unguarded "what?" []
  = (Ok true, [LogWarning "Guardrail not set. User query not checked."])
  ∧ ∃ allowed,
      QueryAnalyzer.is_query_allowed Fixture.world_blocking Fixture.cfg_guarded "what?" []
      = (Ok allowed,
         [InvokeModel (QueryAnalyzer.guardrail_probe "what?") (Some ("g1", "DRAFT"))])
      ∧ (allowed = false
         ↔ Py.assoc "amazon-bedrock-guardrailAction"
             [("amazon-bedrock-guardrailAction", JStr "INTERVENED")]
           = Some (JStr "INTERVENED")).
Proof.
  split.
  - exact (proj1 (is_query_allowed_spec Fixture.world_blocking Fixture.cfg_unguarded
                    "what?" []) eq_refl).
  - refine (proj2 (is_query_allowed_spec Fixture.world_blocking Fixture.cfg_guarded
                     "what?" []) "g1" "blocked" _ eq_refl _ eq_refl eq_refl).
    discriminate.
Defined.

(** ** The orchestrator *)

Section orchestrator.
Import Chatbot.
Context (w : World) (cfg : Config).
Context (context_retriever : string → option (list string) → M (list Hit)).
Context (context_formatter : list Hit → M (string * list Hit)).

(** The check leaves one record behind: the warning when it answers
    without asking, the probe otherwise. *)
Lemma is_query_allowed_trace query t outcome t' :
  QueryAnalyzer.is_query_allowed w cfg query t = (outcome, t') →
  (outcome = Ok true ∧ t' = t ++ [LogWarning "Guardrail not set. User query not checked."])
  ∨ (∃ guardrail, t' = t ++ [InvokeModel (QueryAnalyzer.guardrail_probe query) guardrail]).
Proof.
  unfold QueryAnalyzer.is_query_allowed.
  destruct (String.eqb _ "not_found").
  - intros [= <- <-]. by left.
  - unfold BedrockHelper.invoke_model_response, call, mbind, M_bind, bind, lift.
    intros H. right. eexists.
    repeat match type of H with
           | context [match ?r with _ => _ end] => destruct r
           end; by injection H as <- <-.
Qed.

Lemma answer_question_refused input_params question instructions t t' :
  input_params !! "question" = Some question →
  input_params !! "instructions" = Some instructions →
  QueryAnalyzer.is_query_allowed w cfg question t = (Ok false, t') →
  answer_question w cfg context_retriever context_formatter input_params t
  = (Ok (do_not_nswer question, []), t').
Proof.
  intros Hq Hi Hcheck. unfold answer_question, param. rewrite Hq, Hi.
  cbn [lift]. unfold mbind at 1 2, M_bind, bind at 1 2, lift.
  by rewrite (bind_ok _ _ _ _ _ Hcheck).
Qed.

Lemma answer_question_allowed input_params question instructions t t1 t2 retrieved :
  input_params !! "question" = Some question →
  input_params !! "instructions" = Some instructions →
  QueryAnalyzer.is_query_allowed w cfg question t = (Ok true, t1) →
  context_retriever question (Some (ndx_custom_fields cfg)) t1 = (Ok retrieved, t2) →
  answer_question w cfg context_retriever context_formatter input_params t
  = generate_answer_text w cfg context_formatter question (reverse retrieved)
      [JStr instructions] t2.
Proof.
  intros Hq Hi Hcheck Hretr. unfold answer_question, param. rewrite Hq, Hi.
  cbn [lift]. unfold mbind at 1 2, M_bind, bind at 1 2, lift.
  rewrite (bind_ok _ _ _ _ _ Hcheck). by rewrite (bind_ok _ _ _ _ _ Hretr).
Qed.

(** C4.  When the guardrail check answers false, [answer_question]
    returns the fixed refusal payload with an empty document list,
    whatever the retriever and the formatter are, and the only record
    the request leaves is the guardrail probe: no embedding, no search
    and no answer-generation invocation takes place. *)
Theorem refusal_short_circuit input_params question instructions t t' :
  input_params !! "question" = Some question →
  input_params !! "instructions" = Some instructions →
  QueryAnalyzer.is_query_allowed w cfg question t = (Ok false, t') →
  answer_question w cfg context_retriever context_formatter input_params t
  = (Ok (JObj [("content", JArr [JObj [("text", JStr "Cannot answer to this question.")]])],
         []), t')
  ∧ ∃ guardrail,
      t' = t ++ [InvokeModel (QueryAnalyzer.guardrail_probe question) guardrail].
Proof.
  intros Hq Hi Hcheck. split.
  - by rewrite (answer_question_refused _ _ _ _ _ Hq Hi Hcheck).
  - destruct (is_query_allowed_trace _ _ _ _ Hcheck) as [[? _]|?]; [discriminate | done].
Qed.

End orchestrator.

Lemma refusal_short_circuit_witness :
  Chatbot.ep_answer_question Fixture.world_blocking Fixture.cfg_guarded Fixture.request []
  = (Ok (JObj [("content", JArr [JObj [("text", JStr "Cannot answer to this question.")]])],
         []),
     [InvokeModel (QueryAnalyzer.guardrail_probe "what?") (Some ("g1", "DRAFT"))])
  ∧ ∃ guardrail,
      [InvokeModel (QueryAnalyzer.guardrail_probe "what?") (Some ("g1", "DRAFT"))]
      = [] ++ [InvokeModel (QueryAnalyzer.guardrail_probe "what?") guardrail].
Proof.
  apply (refusal_short_circuit Fixture.world_blocking Fixture.cfg_guarded
           (EpDocumentsRetriever.retrieve_context Fixture.world_blocking Fixture.cfg_guarded)
           (ClaudeContextFormatter.format_context Fixture.world_blocking Fixture.cfg_guarded)
           Fixture.request "what?" "be brief" []);
    vm_compute; reflexivity.
Defined.

(** ** Answer generation *)

Section answer_generation.
Import Chatbot.
Context (w : World) (cfg : Config).
Context (context_formatter : list Hit → M (string * list Hit)).

Lemma invoke_model_raise_at_service body t e :
  bedrock_rt_invoke_model w t body None = Raise e →
  BedrockHelper.invoke_model w body None t = (Raise e, t ++ [InvokeModel body None]).
Proof.
  intros H. unfold BedrockHelper.invoke_model, BedrockHelper.invoke_model_response.
  apply bind_raise. unfold call. by rewrite H.
Qed.

(** C8.  Once the context is formatted and the request body is built,
    a client error raised by the model invocation makes
    [generate_answer_text] return the empty dictionary (after logging
    the error), and a parameter-validation error makes it raise
    [ValueError]. *)
Theorem answer_invocation_errors question documents instructions
    t context documents' t0 request_body t1 :
  context_formatter documents t = (Ok (context, documents'), t0) →
  request_for_answer w cfg question context instructions t0 = (Ok request_body, t1) →
  (bedrock_rt_invoke_model w t1 request_body None = Raise ClientError →
     generate_answer_text w cfg context_formatter question documents instructions t
     = (Ok (JObj [], documents'),
        t1 ++ [InvokeModel request_body None] ++ [LogError "Client error generating answer: "]))
  ∧ (bedrock_rt_invoke_model w t1 request_body None = Raise ParamValidationError →
     generate_answer_text w cfg context_formatter question documents instructions t
     = (Raise ValueError, t1 ++ [InvokeModel request_body None])).
Proof.
  intros Hfmt Hreq. unfold generate_answer_text.
  rewrite (bind_ok _ _ _ _ _ Hfmt). rewrite (bind_ok _ _ _ _ _ Hreq).
  split; intros Hsvc; apply invoke_model_raise_at_service in Hsvc.
  - assert (Hanswer : invoke_for_answer w request_body t1
              = (Ok (JObj []),
                 (t1 ++ [InvokeModel request_body None])
                 ++ [LogError "Client error generating answer: "])).
    { unfold invoke_for_answer.
      erewrite try_except_caught; [|exact Hsvc | reflexivity]. reflexivity. }
    rewrite (bind_ok _ _ _ _ _ Hanswer). cbn. by rewrite <- app_assoc.
  - apply bind_raise. unfold invoke_for_answer.
    erewrite try_except_caught; [|exact Hsvc | reflexivity]. reflexivity.
Qed.

(** C2.  When the text block of the intent response is not JSON,
    [get_query_intent] logs a warning and returns [None]; the caller
    [generate_answer_text] then reads [reformulated_query] from that
    [None] and raises [AttributeError]: no request for the answer is
    built and the original question is not used in its place. *)
Theorem unparsable_intent_stops_answer question documents instructions
    t context documents' t0 request_body t1 llm_answer t2 :
  context_formatter documents t = (Ok (context, documents'), t0) →
  BedrockHelper.build_request_body w cfg (Some "get_query_intent") [JStr question] None t0
  = (Ok request_body, t1) →
  BedrockHelper.invoke_model w request_body None t1 = (Ok llm_answer, t2) →
  QueryAnalyzer.first_block_json w llm_answer = Raise JSONDecodeError →
  QueryAnalyzer.get_query_intent w cfg question t0
  = (Ok None, t2 ++ [LogWarning "Failed to parse JSON from LLM response: "])
  ∧ generate_answer_text w cfg context_formatter question documents instructions t
    = (Raise AttributeError,
       t2 ++ [LogWarning "Failed to parse JSON from LLM response: ";
              LogWarning "WARNING WARNING";
              LogWarning "WHAT EXACTLY IS INSIDE context: ";
              LogWarning "WHAT EXACTLY IS INSIDE query_analysis_elements: "]).
Proof.
  intros Hfmt Hbuild Hinvoke Hparse.
  assert (Hintent : QueryAnalyzer.get_query_intent w cfg question t0
            = (Ok None, t2 ++ [LogWarning "Failed to parse JSON from LLM response: "])).
  { unfold QueryAnalyzer.get_query_intent. rewrite (bind_ok _ _ _ _ _ Hbuild).
    erewrite try_except_caught; cycle 1.
    - rewrite (bind_ok _ _ _ _ _ Hinvoke). rewrite Hparse. reflexivity.
    - reflexivity.
    - reflexivity. }
  split; [exact Hintent|].
  unfold generate_answer_text. rewrite (bind_ok _ _ _ _ _ Hfmt).
  apply bind_raise. unfold request_for_answer.
  rewrite (bind_ok _ _ _ _ _ Hintent). rewrite !bind_log. cbn.
  by rewrite <- !app_assoc.
Qed.

End answer_generation.

Lemma answer_invocation_errors_witness :
  let fmt w := ClaudeContextFormatter.format_context w Fixture.cfg_guarded in
  let run w :=
    Chatbot.generate_answer_text w Fixture.cfg_guarded (fmt w) "what?"
      [Fixture.doc "A" "alpha"] [JStr "be brief"] [] in
  (run (Fixture.world_failing_after 1 ClientError)).1
  = Ok (JObj [], [Fixture.doc "A" "alpha"])
  ∧ (run (Fixture.world_failing_after 1 ParamValidationError)).1 = Raise ValueError.
Proof.
  cbv zeta. split.
  - edestruct (answer_invocation_errors (Fixture.world_failing_after 1 ClientError)
                 Fixture.cfg_guarded
                 (ClaudeContextFormatter.format_context
                    (Fixture.world_failing_after 1 ClientError) Fixture.cfg_guarded)
                 "what?" [Fixture.doc "A" "alpha"] [JStr "be brief"] []) as [H _];
      [vm_compute; reflexivity | vm_compute; reflexivity |].
    rewrite H; [reflexivity | vm_compute; reflexivity].
  - edestruct (answer_invocation_errors (Fixture.world_failing_after 1 ParamValidationError)
                 Fixture.cfg_guarded
                 (ClaudeContextFormatter.format_context
                    (Fixture.world_failing_after 1 ParamValidationError) Fixture.cfg_guarded)
                 "what?" [Fixture.doc "A" "alpha"] [JStr "be brief"] []) as [_ H];
      [vm_compute; reflexivity | vm_compute; reflexivity |].
    rewrite H; [reflexivity | vm_compute; reflexivity].
Defined.

Lemma unparsable_intent_stops_answer_witness :
  let w := Fixture.world_garbled in
  let cfg := Fixture.cfg_guarded in
  (QueryAnalyzer.get_query_intent w cfg "what?" []).1 = Ok None
  ∧ (Chatbot.generate_answer_text w cfg (ClaudeContextFormatter.format_context w cfg)
       "what?" [Fixture.doc "A" "alpha"] [JStr "be brief"] []).1
    = Raise AttributeError.
Proof.
  cbv zeta.
  edestruct (unparsable_intent_stops_answer Fixture.world_garbled Fixture.cfg_guarded
               (ClaudeContextFormatter.format_context Fixture.world_garbled Fixture.cfg_guarded)
               "what?" [Fixture.doc "A" "alpha"] [JStr "be brief"] []) as [H1 H2];
    [vm_compute; reflexivity | vm_compute; reflexivity | vm_compute; reflexivity
    | vm_compute; reflexivity |].
  split.
  - rewrite H1. reflexivity.
  - rewrite H2. reflexivity.
Defined.

(** ** Hybrid retrieval *)

Section retrieval.
Import EpDocumentsRetriever.
Context (w : World) (cfg : Config).

(** A client error at the service makes [translate] log it and return
    [None]. *)
Lemma translate_client_error query t request_body t1 :
  BedrockHelper.build_request_body w cfg (prompt_translate_template_id cfg)
    [JStr query; JStr "fr"] None t = (Ok request_body, t1) →
  bedrock_rt_invoke_model w t1 request_body None = Raise ClientError →
  Translator.translate w cfg query (Some "fr") t
  = (Ok None, t1 ++ [InvokeModel request_body None]
               ++ [LogError "AWS client error during translation: "]).
Proof.
  intros Hbuild Hsvc. unfold Translator.translate. cbn [String.eqb Ascii.eqb Bool.eqb].
  rewrite (bind_ok _ _ _ _ _ Hbuild).
  erewrite try_except_caught; cycle 1.
  - apply bind_raise. unfold BedrockHelper.invoke_model.
    apply bind_raise. unfold BedrockHelper.invoke_model_response, call. by rewrite Hsvc.
  - reflexivity.
  - rewrite bind_log. unfold mret, M_ret, ret. by rewrite <- app_assoc.
Qed.

(** C5.  When [translate] returns [None], step 4 of [retrieve_context]
    logs a warning and keeps the original query text, and the pipeline
    goes on with it: keyword extraction, lexical search, merge and
    reranking run on the original query. *)
Theorem translation_failure_falls_back query include_fields
    t query_embeddings results_knn t2 t3 :
  text2Vec_get_embeddings w t query = Ok query_embeddings →
  perform_vector_search w query_embeddings
    (match rerank_enabled cfg with Some _ => 20%nat | None => 8%nat end)
    include_fields (t ++ [GetEmbeddings query]) = (Ok results_knn, t2) →
  Translator.translate w cfg query (Some "fr") t2 = (Ok None, t3) →
  let t4 := t3 ++ [LogWarning "Query translation failed, using original query. Error: "] in
  translated_query_of w cfg query t2 = (Ok (JStr query), t4)
  ∧ retrieve_context w cfg query include_fields t
    = (query_entities ← preprocess_query w cfg (JStr query);
       results_bm25 ← perform_bm25_search w query_entities 5 include_fields;
       match rerank_enabled cfg with
       | Some model_id =>
           ReRanker.rerank_results w model_id (JStr query)
             (merge results_knn results_bm25) model_id
       | None => mret (merge results_knn results_bm25)
       end) t4.
Proof.
  intros Hembed Hknn Htranslate t4.
  assert (Hstep : translated_query_of w cfg query t2 = (Ok (JStr query), t4)).
  { unfold translated_query_of.
    erewrite try_except_caught; cycle 1.
    - unfold translate_to_french. rewrite (bind_ok _ _ _ _ _ Htranslate). reflexivity.
    - reflexivity.
    - reflexivity. }
  split; [exact Hstep|].
  unfold retrieve_context.
  erewrite bind_ok; [|unfold call; by rewrite Hembed].
  rewrite (bind_ok _ _ _ _ _ Hknn). rewrite (bind_ok _ _ _ _ _ Hstep).
  reflexivity.
Qed.

End retrieval.

Lemma translation_failure_falls_back_witness :
  let w := Fixture.world_failing_first in
  let cfg := Fixture.cfg_guarded in
  (EpDocumentsRetriever.translated_query_of w cfg "what?"
     [GetEmbeddings "what?"; Search (KnnBody 8 [0.5%Q] None)]).1 = Ok (JStr "what?")
  ∧ _id <$> default [] (match (EpDocumentsRetriever.retrieve_context w cfg "what?" None []).1 with
                        | Ok hits => Some hits
                        | Raise _ => None
                        end)
    = [Some "A"; Some "B"; Some "C"].
Proof.
  cbv zeta.
  edestruct (translation_failure_falls_back Fixture.world_failing_first Fixture.cfg_guarded
               "what?" None []) as [H1 H2];
    [vm_compute; reflexivity | vm_compute; reflexivity | vm_compute; reflexivity |].
  split.
  - rewrite H1. reflexivity.
  - rewrite H2. vm_compute. reflexivity.
Defined.

(** ** Reranking *)

Section reranking.
Import ReRanker.

Lemma gt_float_strict (s cutoff : Q) :
  Py.gt_float (JFloat s) cutoff = Ok (bool_decide (cutoff < s)%Q).
Proof.
  unfold Py.gt_float. cbn. f_equal.
  destruct (Qle_bool s cutoff) eqn:Hle; cbn.
  - apply Qle_bool_iff in Hle. symmetry. apply bool_decide_eq_false.
    by apply Qle_not_lt.
  - symmetry. apply bool_decide_eq_true. apply Qnot_le_lt.
    intros Hle'. apply Qle_bool_iff in Hle'. congruence.
Qed.

Lemma matching_indices_entries (cutoff : Q) (entries : list (Z * Q)) :
  matching_indices cutoff (rerank_entry <$> entries)
  = Ok (JInt <$> (fst <$> filter (λ e, (cutoff < e.2)%Q) entries)).
Proof.
  induction entries as [|[i s] rest IH]; [reflexivity|].
  rewrite fmap_cons. cbn [matching_indices].
  change (Py.getitem (rerank_entry (i, s)) "relevance_score") with (Ok (JFloat s)).
  cbn [mbind result_bind]. rewrite gt_float_strict. cbn [mbind result_bind].
  rewrite IH. case_bool_decide as Hs.
  - rewrite filter_cons_True by done. reflexivity.
  - rewrite filter_cons_False by done. reflexivity.
Qed.

Lemma select_entries (i0 : Z) (top : Q) (rest : list (Z * Q)) (results : list Hit) :
  select (rerank_response ((i0, top) :: rest)) results
  = mapM (pick results)
      (JInt <$> (fst <$> filter (λ e, (top * 0.40 < e.2)%Q) ((i0, top) :: rest))).
Proof.
  unfold select.
  change (Py.getitem (rerank_response ((i0, top) :: rest)) "results")
    with (Ok (JArr (rerank_entry <$> (i0, top) :: rest))).
  cbn [mbind result_bind].
  change (Py.getitem_int (JArr (rerank_entry <$> (i0, top) :: rest)) 0)
    with (Ok (rerank_entry (i0, top))).
  cbn [mbind result_bind].
  change (Py.get (rerank_entry (i0, top)) "relevance_score" (JInt 0)) with (Ok (JFloat top)).
  cbn [mbind result_bind threshold_of Py.mul_float Py.to_number Py.iter].
  by rewrite matching_indices_entries.
Qed.

Lemma result_bind_inv {A B} (r : result A) (f : A → result B) b :
  r ≫= f = Ok b → ∃ a, r = Ok a ∧ f a = Ok b.
Proof. destruct r as [a|e]; [eauto | discriminate]. Qed.

Lemma mapM_result_inv {A B} (f : A → result B) l out :
  mapM f l = Ok out → Forall2 (λ a b, f a = Ok b) l out.
Proof.
  revert out. induction l as [|a l IH]; intros out; cbn.
  - intros [= <-]. constructor.
  - intros (b & Hb & H)%result_bind_inv.
    apply result_bind_inv in H as (k & Hk & [= <-]).
    constructor; [done | by apply IH].
Qed.








Context (w : World).



(** Scenario B of the specification. *)
Example rerank_scenario_B :
  (rerank_results Fixture.world_ranking "model" (JStr "what?") Fixture.scenario_hits
     "model" []).1
  = Ok [Fixture.doc "A" "alpha"; Fixture.doc "B" "beta"].
Proof. vm_compute. reflexivity. Qed.


(** A top score that is present, not positive, and not exceeded by the
    later entries leaves no entry above the cutoff. *)
Lemma rerank_nonpositive_top_empty (i0 : Z) (top : Q) (rest : list (Z * Q)) results :
  (top <= 0)%Q → Forall (λ e, (e.2 <= top)%Q) rest →
  select (rerank_response ((i0, top) :: rest)) results = Ok [].
Proof.
  intros Htop Hrest. rewrite select_entries.
  replace (filter _ _) with (@nil (Z * Q)); [reflexivity|].
  symmetry. apply elem_of_nil_inv; intros e [He Hin]%list_elem_of_filter.
  apply elem_of_cons in Hin as [->|Hin].
  - cbn in He. lra.
  - rewrite Forall_forall in Hrest. apply Hrest in Hin. lra.
Qed.

(** C10.  When the first entry of the response carries no
    [relevance_score], the default of zero is used for the cutoff, but
    the filter then reads the score of that same entry without a default:
    [rerank_results] raises [KeyError] instead of returning an empty
    list. *)
Theorem rerank_absent_score_raises self_model_id query results model_id
    t documents raw fields rest :
  results ≠ [] →
  mapM text_chunk results = Ok documents →
  rerank_invoke_model w t self_model_id query documents = Ok raw →
  json_loads w raw = Some (JObj [("results", JArr (JObj fields :: rest))]) →
  Py.assoc "relevance_score" fields = None →
  rerank_results w self_model_id query results model_id t
  = (Raise KeyError, t ++ [InvokeRerank self_model_id query documents]).
Proof.
  intros Hne Hdocs Hraw Hbody Hscore.
  destruct results as [|hit others]; [congruence|].
  unfold rerank_results. rewrite Hdocs. rewrite bind_lift_ok with (a := documents) by done.
  erewrite bind_ok; [|unfold call; by rewrite Hraw].
  unfold Py.loads. rewrite Hbody. rewrite bind_lift_ok with (a := JObj [("results", JArr (JObj fields :: rest))]) by done.
  unfold lift. f_equal.
  unfold select.
  change (Py.getitem (JObj [("results", JArr (JObj fields :: rest))]) "results")
    with (Ok (JArr (JObj fields :: rest))).
  cbn [mbind result_bind].
  change (Py.getitem_int (JArr (JObj fields :: rest)) 0) with (Ok (JObj fields)).
  cbn [mbind result_bind Py.get]. rewrite Hscore.
  cbn [from_option id threshold_of Py.mul_float Py.to_number mbind result_bind Py.iter
       matching_indices Py.getitem].
  by rewrite Hscore.
Qed.

End reranking.


Lemma rerank_absent_score_raises_witness :
  (ReRanker.rerank_results Fixture.world_unscored "model" (JStr "what?")
     [Fixture.doc "A" "alpha"] "model" []).1
  = Raise KeyError.
Proof.
  erewrite (rerank_absent_score_raises Fixture.world_unscored "model" (JStr "what?")
              [Fixture.doc "A" "alpha"] "model" [] _ "ranking" [("index", JInt 0)] []);
    [reflexivity | discriminate | vm_compute; reflexivity | reflexivity
    | reflexivity | reflexivity].
Defined.

(** A present top score of zero, with the later entries below it: the
    result is empty. *)
Example rerank_zero_top_empty :
  ReRanker.select (ReRanker.rerank_response [(0, 0%Q); (1, (-1)%Q)]%Z)
    Fixture.scenario_hits = Ok [].
Proof.
  apply rerank_nonpositive_top_empty; [done|]. repeat constructor. done.
Qed.

(** A response that names a position twice returns more hits than were
    submitted: the bound on the length rests on the ranking being well
    formed. *)
Example rerank_repeated_position :
  ReRanker.select (ReRanker.rerank_response [(0, 0.9%Q); (0, 0.8%Q)]%Z)
    [Fixture.doc "A" "alpha"]
  = Ok [Fixture.doc "A" "alpha"; Fixture.doc "A" "alpha"].
Proof. vm_compute. reflexivity. Qed.

(** ** The order of the context *)

Section context_order.
Import ClaudeContextFormatter Chatbot.
Context (w : World) (cfg : Config).

Lemma string_append_assoc (a b c : string) : (a +:+ b) +:+ c = a +:+ (b +:+ c).
Proof.
  induction a as [|x a IH]; [done|].
  change (String x ((a +:+ b) +:+ c) = String x (a +:+ (b +:+ c))). by rewrite IH.
Qed.

Lemma string_filter_app (p : ascii → bool) (a b : string) :
  string_filter p (a +:+ b) = string_filter p a +:+ string_filter p b.
Proof.
  induction a as [|x a IH]; [done|].
  change (string_filter p (String x (a +:+ b))
          = string_filter p (String x a) +:+ string_filter p b).
  cbn [string_filter]. rewrite IH. by destruct (p x).
Qed.

Lemma string_map_app (f : ascii → ascii) (a b : string) :
  string_map f (a +:+ b) = string_map f a +:+ string_map f b.
Proof.
  induction a as [|x a IH]; [done|].
  change (string_map f (String x (a +:+ b)) = string_map f (String x a) +:+ string_map f b).
  cbn [string_map]. by rewrite IH.
Qed.

(** The clean-up of the last line works character by character. *)
Lemma sanitize_app (a b : string) : sanitize w (a +:+ b) = sanitize w a +:+ sanitize w b.
Proof.
  unfold sanitize, replace_char, remove_non_printable.
  by rewrite string_filter_app, !string_map_app.
Qed.

Lemma format_loop_app context count (l1 l2 : list Hit) :
  format_loop context count (l1 ++ l2)
  = format_loop context count l1 ≫= λ c, format_loop c (count + length l1)%nat l2.
Proof.
  revert context count. induction l1 as [|d l1 IH]; intros context count; cbn.
  - by rewrite Nat.add_0_r.
  - destruct (_source d !! "source") as [excerpt|]; [|done].
    rewrite IH. by rewrite Nat.add_succ_r.
Qed.

Lemma mapM_M_inv {A B} (f : A → M B) (R : A → B → Prop) :
  (∀ a t b t', f a t = (Ok b, t') → R a b) →
  ∀ l t out t', mapM f l t = (Ok out, t') → Forall2 R l out.
Proof.
  intros Hf l. induction l as [|a l IH]; intros t out t'; cbn.
  - intros [= <- _]. constructor.
  - intros (b & t1 & Hb & H)%bind_inv.
    apply bind_inv in H as (k & t2 & Hk & [= <- _]).
    constructor; [by eapply Hf | by eapply IH].
Qed.

Lemma apply_aliases_id document aliases t document' t' :
  apply_aliases document aliases t = (Ok document', t') → _id document' = _id document.
Proof.
  unfold apply_aliases. destruct (rename_fields aliases (_source document)).
  - by intros [= <- _].
  - by intros [= <- _].
Qed.

(** Renaming fields keeps the documents in place. *)
Lemma replace_metadata_keys_ids documents t documents' t' :
  replace_metadata_keys cfg documents t = (Ok documents', t') →
  Forall2 (λ d d', _id d' = _id d) documents documents'.
Proof.
  unfold replace_metadata_keys.
  destruct (ndx_custom_field_aliases cfg) as [[|alias aliases]|].
  - intros [= <- _]. by apply Forall_Forall2_diag, Forall_true.
  - apply mapM_M_inv. intros d t1 d' t2. apply apply_aliases_id.
  - intros [= <- _]. by apply Forall_Forall2_diag, Forall_true.
Qed.

(** C9.  Reversing a document list twice does not change what the
    formatter makes of it.  The orchestrator hands the formatter the
    retrieved list reversed once, and nothing else.  In the context
    formatted from a reversed list, the block of the first (top-ranked)
    hit comes last, numbered with the count of documents, right before
    the closing tag. *)
Theorem context_order_reversed_once (documents : list Hit) (t : list event) :
  format_context w cfg (reverse (reverse documents)) t = format_context w cfg documents t
  ∧ (∀ context_retriever input_params question instructions t1 t2 retrieved,
       input_params !! "question" = Some question →
       input_params !! "instructions" = Some instructions →
       QueryAnalyzer.is_query_allowed w cfg question t = (Ok true, t1) →
       context_retriever question (Some (ndx_custom_fields cfg)) t1 = (Ok retrieved, t2) →
       answer_question w cfg context_retriever (format_context w cfg) input_params t
       = ('(context, shown) ← format_context w cfg (reverse retrieved);
          request_body ← request_for_answer w cfg question context [JStr instructions];
          answer ← invoke_for_answer w request_body;
          mret (answer, shown)) t2)
  ∧ (∀ top others context shown t',
       format_context w cfg (reverse (top :: others)) t = (Ok (context, shown), t') →
       ∃ before top' excerpt head,
         shown = before ++ [top']
         ∧ length before = length others
         ∧ _id top' = _id top
         ∧ _source top' !! "source" = Some excerpt
         ∧ context = sanitize w head
                     +:+ sanitize w (document_block (length others) excerpt)
                     +:+ sanitize w "</documents>").
Proof.
  split; [by rewrite reverse_involutive|]. split.
  - intros retr input_params question instructions t1 t2 retrieved Hq Hi Hcheck Hretr.
    by rewrite (answer_question_allowed _ _ _ _ _ _ _ _ _ _ _ Hq Hi Hcheck Hretr).
  - intros top others context shown t'. rewrite reverse_cons. unfold format_context.
    intros (renamed & t1 & Hrenamed & H)%bind_inv.
    apply bind_inv in H as (c & t2 & Hloop & [= <- <- _]).
    apply replace_metadata_keys_ids in Hrenamed.
    apply Forall2_app_inv_l in Hrenamed as (before & last & Hbefore & Hlast & ->).
    apply Forall2_cons_inv_l in Hlast as (top' & nothing & Hid & Hnil & ->).
    apply Forall2_nil_inv_l in Hnil as ->.
    apply Forall2_length in Hbefore. rewrite length_reverse in Hbefore.
    unfold lift in Hloop. injection Hloop as Hloop _.
    rewrite format_loop_app in Hloop.
    apply result_bind_inv in Hloop as (head & Hhead & Hlast).
    cbn in Hlast. destruct (_source top' !! "source") as [excerpt|] eqn:Hex; [|done].
    injection Hlast as <-.
    exists before, top', excerpt, head. do 4 (split; [done|]).
    rewrite <- Hbefore. by rewrite !sanitize_app, string_append_assoc.
Qed.

End context_order.

(** The formatter on the reversed hits of the stand-in searches. *)
Example format_context_three_docs :
  (ClaudeContextFormatter.format_context Fixture.world_passing Fixture.cfg_guarded
     (reverse Fixture.three_docs) []).1
  = Ok (Fixture.three_docs_context, reverse Fixture.three_docs).
Proof. vm_compute. reflexivity. Qed.

Lemma context_order_reversed_once_witness :
  let w := Fixture.world_passing in
  let cfg := Fixture.cfg_guarded in
  let t1 := [InvokeModel (QueryAnalyzer.guardrail_probe "what?") (Some ("g1", "DRAFT"))] in
  let retrieval := EpDocumentsRetriever.retrieve_context w cfg "what?" (Some []) t1 in
  Chatbot.ep_answer_question w cfg Fixture.request []
  = ('(context, shown) ← ClaudeContextFormatter.format_context w cfg
                            (reverse Fixture.three_docs);
     request_body ← Chatbot.request_for_answer w cfg "what?" context [JStr "be brief"];
     answer ← Chatbot.invoke_for_answer w request_body;
     mret (answer, shown)) retrieval.2
  ∧ ∃ before top' excerpt head,
      reverse Fixture.three_docs = before ++ [top']
      ∧ length before = 2%nat
      ∧ _id top' = Some "A"
      ∧ _source top' !! "source" = Some excerpt
      ∧ Fixture.three_docs_context
        = ClaudeContextFormatter.sanitize w head
          +:+ ClaudeContextFormatter.sanitize w
                (ClaudeContextFormatter.document_block 2 excerpt)
          +:+ ClaudeContextFormatter.sanitize w "</documents>".
Proof.
  cbv zeta.
  destruct (context_order_reversed_once Fixture.world_passing Fixture.cfg_guarded [] [])
    as (_ & Horchestrator & Hlast).
  split.
  - apply (Horchestrator
             (EpDocumentsRetriever.retrieve_context Fixture.world_passing Fixture.cfg_guarded)
             Fixture.request "what?" "be brief"
             [InvokeModel (QueryAnalyzer.guardrail_probe "what?") (Some ("g1", "DRAFT"))]
             _ Fixture.three_docs);
      vm_compute; reflexivity.
  - apply (Hlast (Fixture.doc "A" "alpha") [Fixture.doc "B" "beta"; Fixture.doc "C" "gamma"]
             Fixture.three_docs_context (reverse Fixture.three_docs) []).
    vm_compute. reflexivity.
Defined.

(** * Further properties *)

Lemma try_except_ok {A} (m : M A) h t a t' :
  m t = (Ok a, t') → try_except m h t = (Ok a, t').
Proof. intros H. unfold try_except. by rewrite H. Qed.

(** ** Deduplication *)

Section deduplication.
Import EpDocumentsRetriever.

Implicit Types (seen : gset (option string)) (lst : list Hit).

Lemma fresh_from_unchanged seen lst :
  NoDup (_id <$> lst) → (∀ d, d ∈ lst → _id d ∉ seen) → fresh_from seen lst = lst.
Proof.
  revert seen. induction lst as [|d rest IH]; intros seen Hnd Hseen; [done|].
  rewrite fmap_cons in Hnd. apply NoDup_cons in Hnd as [Hd Hrest].
  cbn [fresh_from]. rewrite decide_False by (apply Hseen; left).
  f_equal. apply IH; [done|].
  intros x Hx. rewrite not_elem_of_union, not_elem_of_singleton. split.
  - intros Heq. apply Hd. rewrite <- Heq. by apply list_elem_of_fmap_2.
  - apply Hseen. by right.
Qed.

(** Deduplicating twice changes nothing more, and a list is left as it is
    exactly when its identities are pairwise distinct. *)
Theorem get_distinct_values_idempotent lst :
  get_distinct_values (get_distinct_values lst) = get_distinct_values lst
  ∧ (get_distinct_values lst = lst ↔ NoDup (_id <$> lst)).
Proof.
  rewrite !get_distinct_values_fresh.
  assert (Hfix : ∀ l, NoDup (_id <$> l) → fresh_from ∅ l = l).
  { intros l Hl. apply fresh_from_unchanged; [done|]. intros d _. apply not_elem_of_empty. }
  split; [apply Hfix, fresh_from_NoDup|]. split.
  - intros <-. apply fresh_from_NoDup.
  - apply Hfix.
Qed.

Lemma fresh_from_filter_id seen lst (i : option string) :
  filter (λ d, _id d = i) (fresh_from seen lst)
  = if decide (i ∈ seen) then []
    else option_list (head (filter (λ d, _id d = i) lst)).
Proof.
  revert seen. induction lst as [|d rest IH]; intros seen; cbn [fresh_from].
  - rewrite !filter_nil. by case_decide.
  - destruct (decide (_id d ∈ seen)) as [Hin|Hout].
    + rewrite IH. case_decide as Hi; [done|].
      rewrite filter_cons_False by congruence. done.
    + destruct (decide (_id d = i)) as [<-|Hne].
      * rewrite !filter_cons_True by done. rewrite decide_False by done.
        cbn. f_equal. rewrite IH. rewrite decide_True; [done|].
        apply elem_of_union_l. by apply elem_of_singleton.
      * rewrite !filter_cons_False by done. rewrite IH.
        destruct (decide (i ∈ seen)) as [Hi|Hi].
        -- rewrite decide_True; [done|]. by apply elem_of_union_r.
        -- rewrite decide_False; [done|].
           rewrite not_elem_of_union, not_elem_of_singleton. split; congruence.
Qed.

(** Of the hits that share an identity, the merge keeps the first and
    only the first; the hits without ['_id'] share the identity [None]
    and are treated alike. *)
Theorem merge_keeps_first_of_identity (results_knn results_bm25 : list Hit)
    (i : option string) :
  filter (λ d, _id d = i) (merge results_knn results_bm25)
  = option_list (head (filter (λ d, _id d = i) (results_knn ++ results_bm25))).
Proof.
  unfold merge. rewrite get_distinct_values_fresh, fresh_from_filter_id.
  rewrite decide_False; [done | apply not_elem_of_empty].
Qed.

End deduplication.

(** ** Query translation and keyword extraction *)

Section query_preparation.
Import EpDocumentsRetriever.
Context (w : World) (cfg : Config).

(** Step 4 of [retrieve_context] never raises: it yields either the text
    of a translation that was delivered or the original query. *)
Theorem translated_query_never_raises (query : string) (t : list event) :
  ∃ translated t',
    translated_query_of w cfg query t = (Ok translated, t')
    ∧ (translated = JStr query
       ∨ ∃ answer, Translator.translate w cfg query (Some "fr") t = (Ok (Some answer), t')).
Proof.
  unfold translated_query_of, try_except.
  match goal with |- context [match ?m t with _ => _ end] => destruct (m t) as [[j|e] t1] eqn:Hrun end.
  - exists j, t1. split; [done|]. right.
    apply bind_inv in Hrun as (result & t2 & Htranslate & Hrest).
    unfold lift in Hrest. destruct result as [answer|]; [|discriminate].
    injection Hrest as _ <-. by exists answer.
  - eexists _, _. split; [reflexivity | by left].
Qed.

Lemma all_str_strings (words : list string) : Py.all_str (JStr <$> words) = Some words.
Proof. induction words as [|s words IH]; [done|]. cbn. by rewrite IH. Qed.

Lemma analyze_query_parsed query t request_body t1 llm_answer t2 fields :
  BedrockHelper.build_request_body w cfg (Some "analyze_query") [query] None t
  = (Ok request_body, t1) →
  BedrockHelper.invoke_model w request_body None t1 = (Ok llm_answer, t2) →
  QueryAnalyzer.first_block_json w llm_answer = Ok (JObj fields) →
  QueryAnalyzer.analyze_query w cfg query (Some "analyze_query") t
  = (Ok (Some (mkQueryElements
                 (default (JStr "undefined") (Py.assoc "query_target_type" fields))
                 (default (JStr "undefined") (Py.assoc "inferred_instructions" fields))
                 (default (JArr []) (Py.assoc "search_elements" fields)))), t2).
Proof.
  intros Hbuild Hinvoke Hparse. unfold QueryAnalyzer.analyze_query.
  change (if String.eqb "analyze_query" "" then "analyze_query" else "analyze_query")
    with "analyze_query".
  rewrite (bind_ok _ _ _ _ _ Hbuild). apply try_except_ok.
  rewrite (bind_ok _ _ _ _ _ Hinvoke). by rewrite Hparse.
Qed.

(** Keyword extraction: when the analysis is not JSON the query itself is
    searched for; when it lists search terms they are joined with a comma
    and a space; when it carries no [search_elements] the lexical search
    gets the empty text. *)
Theorem preprocess_query_outcomes (query : json) t request_body t1 llm_answer t2 :
  BedrockHelper.build_request_body w cfg (Some "analyze_query") [query] None t
  = (Ok request_body, t1) →
  BedrockHelper.invoke_model w request_body None t1 = (Ok llm_answer, t2) →
  (QueryAnalyzer.first_block_json w llm_answer = Raise JSONDecodeError →
     preprocess_query w cfg query t
     = (Ok query, t2 ++ [LogWarning "Failed to parse JSON from LLM response: "]))
  ∧ (∀ fields words,
       QueryAnalyzer.first_block_json w llm_answer = Ok (JObj fields) →
       Py.assoc "search_elements" fields = Some (JArr (JStr <$> words)) →
       preprocess_query w cfg query t = (Ok (JStr (String.concat ", " words)), t2))
  ∧ (∀ fields,
       QueryAnalyzer.first_block_json w llm_answer = Ok (JObj fields) →
       Py.assoc "search_elements" fields = None →
       preprocess_query w cfg query t = (Ok (JStr ""), t2)).
Proof.
  intros Hbuild Hinvoke. split; [|split].
  - intros Hparse. unfold preprocess_query.
    assert (Hnone : QueryAnalyzer.analyze_query w cfg query (Some "analyze_query") t
              = (Ok None, t2 ++ [LogWarning "Failed to parse JSON from LLM response: "])).
    { unfold QueryAnalyzer.analyze_query.
      change (if String.eqb "analyze_query" "" then "analyze_query" else "analyze_query")
        with "analyze_query".
      rewrite (bind_ok _ _ _ _ _ Hbuild).
      erewrite try_except_caught; cycle 1.
      - rewrite (bind_ok _ _ _ _ _ Hinvoke). rewrite Hparse. reflexivity.
      - reflexivity.
      - reflexivity. }
    by rewrite (bind_ok _ _ _ _ _ Hnone).
  - intros fields words Hparse Hwords. unfold preprocess_query.
    rewrite (bind_ok _ _ _ _ _ (analyze_query_parsed _ _ _ _ _ _ _ Hbuild Hinvoke Hparse)).
    rewrite Hwords. cbn [search_elements default from_option id].
    unfold Py.join. cbn [Py.iter]. by rewrite all_str_strings.
  - intros fields Hparse Hnone. unfold preprocess_query.
    rewrite (bind_ok _ _ _ _ _ (analyze_query_parsed _ _ _ _ _ _ _ Hbuild Hinvoke Hparse)).
    rewrite Hnone. reflexivity.
Qed.

End query_preparation.

Lemma preprocess_query_outcomes_witness :
  (EpDocumentsRetriever.preprocess_query Fixture.world_garbled Fixture.cfg_guarded
     (JStr "what?") []).1 = Ok (JStr "what?")
  ∧ (EpDocumentsRetriever.preprocess_query Cases.world_keywords Fixture.cfg_guarded
       (JStr "what?") []).1 = Ok (JStr "treaty, Maastricht")
  ∧ (EpDocumentsRetriever.preprocess_query Cases.world_no_terms Fixture.cfg_guarded
       (JStr "what?") []).1 = Ok (JStr "").
Proof.
  split; [|split].
  - edestruct (preprocess_query_outcomes Fixture.world_garbled Fixture.cfg_guarded
                 (JStr "what?") []) as (H & _ & _);
      [vm_compute; reflexivity | vm_compute; reflexivity |].
    rewrite H; [reflexivity | vm_compute; reflexivity].
  - edestruct (preprocess_query_outcomes Cases.world_keywords Fixture.cfg_guarded
                 (JStr "what?") []) as (_ & H & _);
      [vm_compute; reflexivity | vm_compute; reflexivity |].
    erewrite (H _ ["treaty"; "Maastricht"]); [reflexivity | vm_compute; reflexivity | reflexivity].
  - edestruct (preprocess_query_outcomes Cases.world_no_terms Fixture.cfg_guarded
                 (JStr "what?") []) as (_ & _ & H);
      [vm_compute; reflexivity | vm_compute; reflexivity |].
    erewrite H; [reflexivity | vm_compute; reflexivity | reflexivity].
Defined.

(** ** Failures around the answer *)

Section answer_failures.
Import Chatbot.
Context (w : World) (cfg : Config).
Context (context_retriever : string → option (list string) → M (list Hit)).
Context (context_formatter : list Hit → M (string * list Hit)).

(** When the intent response has no content block, the intent and the
    reformulated query both default to the text undefined, and that text,
    not the question, is what the answer request is built from. *)
Theorem empty_content_gives_undefined_intent question context instructions
    t request_body t1 llm_answer t2 content :
  BedrockHelper.build_request_body w cfg (Some "get_query_intent") [JStr question] None t
  = (Ok request_body, t1) →
  BedrockHelper.invoke_model w request_body None t1 = (Ok llm_answer, t2) →
  Py.get llm_answer "content" (JArr []) = Ok content →
  Py.truthy content = false →
  QueryAnalyzer.get_query_intent w cfg question t
  = (Ok (Some (mkQueryIntent (JStr "undefined") (JStr "undefined"))), t2)
  ∧ request_for_answer w cfg question context instructions t
    = BedrockHelper.build_request_body w cfg (Some "answer_question")
        [JStr context; JStr "undefined"] (Some instructions)
        (t2 ++ [LogWarning "WARNING WARNING";
                LogWarning "WHAT EXACTLY IS INSIDE context: ";
                LogWarning "WHAT EXACTLY IS INSIDE query_analysis_elements: "]).
Proof.
  intros Hbuild Hinvoke Hcontent Hempty.
  assert (Hintent : QueryAnalyzer.get_query_intent w cfg question t
            = (Ok (Some (mkQueryIntent (JStr "undefined") (JStr "undefined"))), t2)).
  { unfold QueryAnalyzer.get_query_intent. rewrite (bind_ok _ _ _ _ _ Hbuild).
    apply try_except_ok. rewrite (bind_ok _ _ _ _ _ Hinvoke).
    unfold QueryAnalyzer.first_block_json. rewrite Hcontent.
    cbn [mbind result_bind]. by rewrite Hempty. }
  split; [exact Hintent|].
  unfold request_for_answer. rewrite (bind_ok _ _ _ _ _ Hintent).
  rewrite !bind_log. cbn [reformulated_query_of reformulated_query].
  rewrite bind_lift_ok with (a := JStr "undefined") by done.
  by rewrite <- !app_assoc.
Qed.

(** An exception raised by the service at the intent invocation, a
    client error included, is not caught: [generate_answer_text] raises
    it after that one call, instead of returning the empty dictionary. *)
Theorem intent_failure_not_recovered question documents instructions
    t context documents' t0 request_body t1 e :
  context_formatter documents t = (Ok (context, documents'), t0) →
  BedrockHelper.build_request_body w cfg (Some "get_query_intent") [JStr question] None t0
  = (Ok request_body, t1) →
  bedrock_rt_invoke_model w t1 request_body None = Raise e →
  e ≠ JSONDecodeError →
  generate_answer_text w cfg context_formatter question documents instructions t
  = (Raise e, t1 ++ [InvokeModel request_body None]).
Proof.
  intros Hfmt Hbuild Hsvc Hne. unfold generate_answer_text.
  rewrite (bind_ok _ _ _ _ _ Hfmt). apply bind_raise.
  unfold request_for_answer. apply bind_raise.
  unfold QueryAnalyzer.get_query_intent. rewrite (bind_ok _ _ _ _ _ Hbuild).
  unfold try_except.
  erewrite bind_raise; [|by apply invoke_model_raise_at_service].
  by destruct e.
Qed.

(** A response body with a non-null [error] entry at the answer
    invocation becomes [BedrockHelperError], which no clause of
    [generate_answer_text] catches. *)
Theorem error_field_stops_answer question documents instructions
    t context documents' t0 request_body t1 raw fields reason :
  context_formatter documents t = (Ok (context, documents'), t0) →
  request_for_answer w cfg question context instructions t0 = (Ok request_body, t1) →
  bedrock_rt_invoke_model w t1 request_body None = Ok raw →
  json_loads w raw = Some (JObj fields) →
  Py.assoc "error" fields = Some reason →
  reason ≠ JNull →
  generate_answer_text w cfg context_formatter question documents instructions t
  = (Raise BedrockHelperError, t1 ++ [InvokeModel request_body None]).
Proof.
  intros Hfmt Hreq Hsvc Hloads Herror Hreason. unfold generate_answer_text.
  rewrite (bind_ok _ _ _ _ _ Hfmt). rewrite (bind_ok _ _ _ _ _ Hreq).
  apply bind_raise. unfold invoke_for_answer, try_except.
  assert (Hinvoke : BedrockHelper.invoke_model w request_body None t1
            = (Raise BedrockHelperError, t1 ++ [InvokeModel request_body None])).
  { unfold BedrockHelper.invoke_model.
    erewrite bind_ok; [|unfold BedrockHelper.invoke_model_response, call; by rewrite Hsvc].
    unfold Py.loads. rewrite Hloads.
    rewrite bind_lift_ok with (a := JObj fields) by done.
    cbn [Py.get]. rewrite Herror. cbn [from_option id].
    rewrite bind_lift_ok with (a := reason) by done.
    by destruct reason. }
  by rewrite Hinvoke.
Qed.

(** A failure of the guardrail probe is fatal to the request: the
    exception the service raises leaves [answer_question] as it is, after
    the probe alone, and an answer that is not JSON raises
    [JSONDecodeError]; neither is taken for a refusal or a permission. *)
Theorem guardrail_failure_is_fatal input_params question instructions gid t :
  input_params !! "question" = Some question →
  input_params !! "instructions" = Some instructions →
  bedrock_guardrail_id cfg = Some gid →
  gid ≠ "not_found" →
  let guardrail := Some (gid, default "DRAFT" (bedrock_guardrail_version cfg)) in
  let probe := InvokeModel (QueryAnalyzer.guardrail_probe question) guardrail in
  (∀ e, bedrock_rt_invoke_model w t (QueryAnalyzer.guardrail_probe question) guardrail
        = Raise e →
        answer_question w cfg context_retriever context_formatter input_params t
        = (Raise e, t ++ [probe]))
  ∧ (∀ raw, bedrock_rt_invoke_model w t (QueryAnalyzer.guardrail_probe question) guardrail
            = Ok raw →
            json_loads w raw = None →
            answer_question w cfg context_retriever context_formatter input_params t
            = (Raise JSONDecodeError, t ++ [probe])).
Proof.
  intros Hq Hi Hgid Hne guardrail probe.
  assert (Hstart : ∀ outcome,
            QueryAnalyzer.is_query_allowed w cfg question t = (Raise outcome, t ++ [probe]) →
            answer_question w cfg context_retriever context_formatter input_params t
            = (Raise outcome, t ++ [probe])).
  { intros outcome Hcheck. unfold answer_question, param. rewrite Hq, Hi.
    cbn [lift]. unfold mbind at 1 2, M_bind, bind at 1 2, lift.
    by rewrite (bind_raise _ _ _ _ _ Hcheck). }
  split.
  - intros e Hsvc. apply Hstart. unfold QueryAnalyzer.is_query_allowed.
    rewrite (guardrail_id_configured cfg gid Hgid Hne). rewrite Hgid.
    cbn [default from_option id]. apply bind_raise.
    unfold BedrockHelper.invoke_model_response, call. fold guardrail. by rewrite Hsvc.
  - intros raw Hsvc Hloads. apply Hstart. unfold QueryAnalyzer.is_query_allowed.
    rewrite (guardrail_id_configured cfg gid Hgid Hne). rewrite Hgid.
    cbn [default from_option id].
    erewrite bind_ok;
      [|unfold BedrockHelper.invoke_model_response, call; fold guardrail; by rewrite Hsvc].
    unfold Py.loads. by rewrite Hloads.
Qed.

End answer_failures.

Lemma empty_content_gives_undefined_intent_witness :
  (QueryAnalyzer.get_query_intent Cases.world_silent Fixture.cfg_guarded "what?" []).1
  = Ok (Some (mkQueryIntent (JStr "undefined") (JStr "undefined"))).
Proof.
  edestruct (empty_content_gives_undefined_intent Cases.world_silent Fixture.cfg_guarded
               "what?" "context" [JStr "be brief"] []) as [H _];
    [vm_compute; reflexivity | vm_compute; reflexivity | vm_compute; reflexivity
    | reflexivity |].
  rewrite H. reflexivity.
Defined.

Lemma intent_failure_not_recovered_witness :
  let w := Fixture.world_failing_after 0 ClientError in
  (Chatbot.generate_answer_text w Fixture.cfg_guarded
     (ClaudeContextFormatter.format_context w Fixture.cfg_guarded)
     "what?" [Fixture.doc "A" "alpha"] [JStr "be brief"] []).1
  = Raise ClientError.
Proof.
  cbv zeta.
  erewrite (intent_failure_not_recovered (Fixture.world_failing_after 0 ClientError)
              Fixture.cfg_guarded
              (ClaudeContextFormatter.format_context
                 (Fixture.world_failing_after 0 ClientError) Fixture.cfg_guarded)
              "what?" [Fixture.doc "A" "alpha"] [JStr "be brief"] []);
    [reflexivity | vm_compute; reflexivity | vm_compute; reflexivity
    | vm_compute; reflexivity | discriminate].
Defined.

Lemma error_field_stops_answer_witness :
  let w := Cases.world_error_field 1 in
  (Chatbot.generate_answer_text w Fixture.cfg_guarded
     (ClaudeContextFormatter.format_context w Fixture.cfg_guarded)
     "what?" [Fixture.doc "A" "alpha"] [JStr "be brief"] []).1
  = Raise BedrockHelperError.
Proof.
  cbv zeta.
  erewrite (error_field_stops_answer (Cases.world_error_field 1) Fixture.cfg_guarded
              (ClaudeContextFormatter.format_context
                 (Cases.world_error_field 1) Fixture.cfg_guarded)
              "what?" [Fixture.doc "A" "alpha"] [JStr "be brief"] []
              _ _ _ _ _ "failed" [("error", JStr "throttled")] (JStr "throttled"));
    [reflexivity | vm_compute; reflexivity | vm_compute; reflexivity
    | vm_compute; reflexivity | reflexivity | reflexivity | discriminate].
Defined.

Lemma guardrail_failure_is_fatal_witness :
  (Chatbot.ep_answer_question (Cases.world_guard_down ClientError) Fixture.cfg_guarded
     Fixture.request []).1 = Raise ClientError
  ∧ (Chatbot.ep_answer_question Cases.world_guard_garbled Fixture.cfg_guarded
       Fixture.request []).1 = Raise JSONDecodeError.
Proof.
  split.
  - edestruct (guardrail_failure_is_fatal (Cases.world_guard_down ClientError)
                 Fixture.cfg_guarded
                 (EpDocumentsRetriever.retrieve_context
                    (Cases.world_guard_down ClientError) Fixture.cfg_guarded)
                 (ClaudeContextFormatter.format_context
                    (Cases.world_guard_down ClientError) Fixture.cfg_guarded)
                 Fixture.request "what?" "be brief" "g1" []) as [H _];
      [reflexivity | reflexivity | reflexivity | discriminate |].
    unfold Chatbot.ep_answer_question. rewrite (H ClientError); reflexivity.
  - edestruct (guardrail_failure_is_fatal Cases.world_guard_garbled Fixture.cfg_guarded
                 (EpDocumentsRetriever.retrieve_context
                    Cases.world_guard_garbled Fixture.cfg_guarded)
                 (ClaudeContextFormatter.format_context
                    Cases.world_guard_garbled Fixture.cfg_guarded)
                 Fixture.request "what?" "be brief" "g1" []) as [_ H];
      [reflexivity | reflexivity | reflexivity | discriminate |].
    unfold Chatbot.ep_answer_question. rewrite (H "static"); reflexivity.
Defined.

(** ** Reranking: positions and failures *)

Section rerank_positions.
Import ReRanker.

Lemma mapM_result_ok {A B} (f : A → result B) l out :
  Forall2 (λ a b, f a = Ok b) l out → mapM f l = Ok out.
Proof.
  induction 1 as [|a b l out Hab _ IH]; [done|]. cbn [mapM]. by rewrite Hab, IH.
Qed.






Lemma mapM_text_chunk_missing (results : list Hit) :
  Exists (λ hit, _source hit !! "AMAZON_BEDROCK_TEXT_CHUNK" = None) results →
  mapM text_chunk results = Raise KeyError.
Proof.
  induction 1 as [hit rest Hhit|hit rest _ IH]; cbn [mapM].
  - unfold text_chunk. by rewrite Hhit.
  - destruct (_source hit !! "AMAZON_BEDROCK_TEXT_CHUNK") as [chunk|] eqn:Hchunk.
    + assert (text_chunk hit = Ok chunk) as -> by (unfold text_chunk; by rewrite Hchunk).
      cbn [mbind result_bind]. by rewrite IH.
    + assert (text_chunk hit = Raise KeyError) as -> by (unfold text_chunk; by rewrite Hchunk).
      done.
Qed.

(** A submitted hit without a text chunk makes [rerank_results] raise
    [KeyError] before the model is called. *)
Theorem rerank_missing_chunk_raises (w : World) self_model_id query results model_id t :
  Exists (λ hit, _source hit !! "AMAZON_BEDROCK_TEXT_CHUNK" = None) results →
  rerank_results w self_model_id query results model_id t = (Raise KeyError, t).
Proof.
  intros Hmissing. unfold rerank_results.
  destruct results as [|hit rest]; [by apply Exists_nil in Hmissing|].
  by rewrite (mapM_text_chunk_missing _ Hmissing).
Qed.

End rerank_positions.




Lemma rerank_missing_chunk_raises_witness :
  ReRanker.rerank_results Fixture.world_ranking "model" (JStr "what?")
    [Fixture.doc "A" "alpha"; Fixture.hit "B" 0.8%Q] "model" []
  = (Raise KeyError, []).
Proof.
  apply rerank_missing_chunk_raises. apply Exists_cons_tl, Exists_cons_hd. reflexivity.
Defined.

(** ** The formatted context *)

Section formatted_context.
Import ClaudeContextFormatter.
Context (w : World) (cfg : Config).

Lemma chars_string_map (f : ascii → ascii) (s : string) :
  list_ascii_of_string (string_map f s) = f <$> list_ascii_of_string s.
Proof. induction s as [|c s IH]; [done|]. cbn. by rewrite IH. Qed.

Lemma chars_string_filter (p : ascii → bool) (s : string) :
  list_ascii_of_string (string_filter p s) = filter (λ c, p c = true) (list_ascii_of_string s).
Proof.
  induction s as [|c s IH]; [done|]. cbn [string_filter list_ascii_of_string].
  destruct (p c) eqn:Hc.
  - rewrite filter_cons_True by done. cbn. by rewrite IH.
  - rewrite filter_cons_False by congruence. done.
Qed.

Lemma sanitize_chars (context : string) (c : ascii) :
  c ∈ list_ascii_of_string (sanitize w context) →
  c ≠ backslash ∧ c ≠ double_quote
  ∧ (isprintable w c = true ∨ c = slash ∨ c = single_quote).
Proof.
  unfold sanitize, replace_char, remove_non_printable.
  rewrite !chars_string_map, chars_string_filter.
  intros (x & -> & (c0 & -> & [Hc0 _]%list_elem_of_filter)%list_elem_of_fmap)%list_elem_of_fmap.
  destruct (Ascii.eqb_spec c0 backslash) as [->|Hbs].
  - destruct (Ascii.eqb_spec slash double_quote) as [Heq|_]; [discriminate Heq|].
    repeat split; [discriminate | discriminate | auto].
  - destruct (Ascii.eqb_spec c0 double_quote) as [->|Hdq].
    + repeat split; [discriminate | discriminate | auto].
    + repeat split; [done | done | auto].
Qed.

(** Whatever the documents hold, a context the formatter returns has no
    backslash and no double quote in it, and each of its characters is
    printable or one of the two replacement characters. *)
Theorem formatted_context_is_clean (documents : list Hit) t context shown t' :
  format_context w cfg documents t = (Ok (context, shown), t') →
  ∀ c, c ∈ list_ascii_of_string context →
       c ≠ backslash ∧ c ≠ double_quote
       ∧ (isprintable w c = true ∨ c = slash ∨ c = single_quote).
Proof.
  unfold format_context.
  intros (renamed & t1 & _ & H)%bind_inv.
  apply bind_inv in H as (body & t2 & _ & [= <- _ _]).
  apply sanitize_chars.
Qed.

Lemma format_loop_missing_source context count (documents : list Hit) :
  Exists (λ d, _source d !! "source" = None) documents →
  format_loop context count documents = Raise KeyError.
Proof.
  intros Hmissing. revert context count.
  induction Hmissing as [d rest Hd|d rest _ IH]; intros context count; cbn [format_loop].
  - by rewrite Hd.
  - destruct (_source d !! "source"); [apply IH | done].
Qed.

(** With no alias configured, a document without a [source] field makes
    the formatter raise [KeyError]; no context is returned for the
    others. *)
Theorem format_context_missing_source (documents : list Hit) t :
  ndx_custom_field_aliases cfg = Some [] →
  Exists (λ d, _source d !! "source" = None) documents →
  format_context w cfg documents t = (Raise KeyError, t).
Proof.
  intros Hcfg Hmissing. unfold format_context, replace_metadata_keys. rewrite Hcfg.
  cbn. unfold mbind, M_bind, bind, lift, mret, M_ret, ret.
  by rewrite (format_loop_missing_source _ _ _ Hmissing).
Qed.

(** One alias: a present field moves to the alias name with its value,
    leaving the other fields alone; an alias equal to the field name
    deletes the field; an absent field leaves the document as it was and
    logs a warning. *)
Theorem apply_aliases_single (document : Hit) (name alias : string) t :
  (∀ value, _source document !! name = Some value →
     ∃ document',
       apply_aliases document [(name, alias)] t = (Ok document', t)
       ∧ _id document' = _id document
       ∧ _source document' !! name = None
       ∧ (alias ≠ name → _source document' !! alias = Some value)
       ∧ (∀ other, other ≠ name → other ≠ alias →
            _source document' !! other = _source document !! other))
  ∧ (_source document !! name = None →
     apply_aliases document [(name, alias)] t
     = (Ok document,
        t ++ [LogWarning "An error occurred applying custom field aliases. "])).
Proof.
  split.
  - intros value Hvalue. unfold apply_aliases. cbn [rename_fields]. rewrite Hvalue.
    eexists. split; [reflexivity|]. cbn [_id _source].
    split; [done|]. split; [apply lookup_delete_eq|]. split.
    + intros Hne. rewrite lookup_delete_ne by done. apply lookup_insert_eq.
    + intros other Hname Halias.
      rewrite lookup_delete_ne by done. by rewrite lookup_insert_ne.
  - intros Hnone. unfold apply_aliases. cbn [rename_fields]. by rewrite Hnone.
Qed.

End formatted_context.

Lemma formatted_context_is_clean_witness :
  Forall (λ c, c ≠ ClaudeContextFormatter.backslash
               ∧ c ≠ ClaudeContextFormatter.double_quote
               ∧ (Fixture.ascii_printable c = true
                  ∨ c = ClaudeContextFormatter.slash
                  ∨ c = ClaudeContextFormatter.single_quote))
    (list_ascii_of_string Samples.messy_context).
Proof.
  apply Forall_forall.
  apply (formatted_context_is_clean Fixture.world_passing Fixture.cfg_guarded
           [Samples.messy_doc] [] Samples.messy_context [Samples.messy_doc] []).
  vm_compute. reflexivity.
Defined.

Lemma format_context_missing_source_witness :
  ClaudeContextFormatter.format_context Fixture.world_passing Fixture.cfg_guarded
    [Fixture.doc "A" "alpha"; Fixture.hit "B" 0.8%Q] []
  = (Raise KeyError, []).
Proof.
  apply format_context_missing_source; [reflexivity|].
  apply Exists_cons_tl, Exists_cons_hd. reflexivity.
Defined.

Lemma apply_aliases_single_witness :
  ∃ document',
    ClaudeContextFormatter.apply_aliases (Fixture.doc "A" "alpha")
      [("AMAZON_BEDROCK_TEXT_CHUNK", "excerpt")] []
    = (Ok document', [])
    ∧ _id document' = Some "A"
    ∧ _source document' !! "AMAZON_BEDROCK_TEXT_CHUNK" = None
    ∧ ("excerpt" ≠ "AMAZON_BEDROCK_TEXT_CHUNK" → _source document' !! "excerpt" = Some "alpha")
    ∧ (∀ other, other ≠ "AMAZON_BEDROCK_TEXT_CHUNK" → other ≠ "excerpt" →
         _source document' !! other = _source (Fixture.doc "A" "alpha") !! other).
Proof.
  apply (proj1 (apply_aliases_single (Fixture.doc "A" "alpha")
                  "AMAZON_BEDROCK_TEXT_CHUNK" "excerpt" []) "alpha").
  reflexivity.
Defined.

(** ** Request bodies *)

Section request_bodies.
Import BedrockHelper.
Context (w : World) (cfg : Config).

Lemma assoc_set_eq k v fields : Py.assoc k (Py.assoc_set k v fields) = Some v.
Proof.
  induction fields as [|[k' v'] rest IH]; cbn.
  - by rewrite String.eqb_refl.
  - destruct (String.eqb_spec k k') as [->|Hne]; cbn.
    + by rewrite String.eqb_refl.
    + rewrite (proj2 (String.eqb_neq k k') Hne). exact IH.
Qed.

Lemma assoc_set_ne k k' v fields :
  k ≠ k' → Py.assoc k' (Py.assoc_set k v fields) = Py.assoc k' fields.
Proof.
  intros Hne. induction fields as [|[k0 v0] rest IH]; cbn.
  - by rewrite (proj2 (String.eqb_neq k' k)).
  - destruct (String.eqb_spec k k0) as [->|Hk]; cbn.
    + rewrite !(proj2 (String.eqb_neq k' k0)); done.
    + destruct (String.eqb k' k0); [done | exact IH].
Qed.

(** The request body built from a template: an unknown template raises
    [KeyError] before anything is logged; for a known one, the content of
    the first message is the formatted prompt, the later messages and the
    other entries are those of the template, and a system entry is
    written only where the template already has one. *)
Theorem build_request_body_fills_template (template_id : string) (values : list json) t :
  (prompt_templates cfg !! template_id = None →
     build_request_body w cfg (Some template_id) values None t = (Raise KeyError, t))
  ∧ (∀ tpl prompt first others,
       prompt_templates cfg !! template_id = Some tpl →
       str_format w (tpl_prompt tpl) values = Ok prompt →
       Py.assoc "messages" (tpl_request tpl) = Some (JArr (JObj first :: others)) →
       ∃ body first',
         build_request_body w cfg (Some template_id) values None t
         = (Ok (JObj body),
            t ++ [LogWarning "WHAT EXACTLY IS INSIDE request_body_template_id: ";
                  LogWarning "WHAT EXACTLY IS INSIDE values: ";
                  LogWarning "WHAT EXACTLY IS INSIDE request_body_template: "])
         ∧ Py.assoc "messages" body = Some (JArr (JObj first' :: others))
         ∧ Py.assoc "content" first' = Some (JStr prompt)
         ∧ (∀ k, k ≠ "content" → Py.assoc k first' = Py.assoc k first)
         ∧ Py.assoc "system" body
           = (λ _, JStr (tpl_system tpl)) <$> Py.assoc "system" (tpl_request tpl)
         ∧ (∀ k, k ≠ "messages" → k ≠ "system" →
              Py.assoc k body = Py.assoc k (tpl_request tpl))).
Proof.
  split.
  - intros Hnone. unfold build_request_body, get_request_body_template.
    cbn [mbind option_bind]. by rewrite Hnone.
  - intros tpl prompt first others Htpl Hprompt Hmessages.
    set (request_body :=
           match Py.assoc "system" (tpl_request tpl) with
           | Some _ => Py.assoc_set "system" (JStr (tpl_system tpl)) (tpl_request tpl)
           | None => tpl_request tpl
           end).
    assert (Hmsg : Py.assoc "messages" request_body = Some (JArr (JObj first :: others))).
    { unfold request_body. destruct (Py.assoc "system" (tpl_request tpl)); [|done].
      by rewrite assoc_set_ne. }
    exists (Py.assoc_set "messages"
              (JArr (JObj (Py.assoc_set "content" (JStr prompt) first) :: others))
              request_body),
           (Py.assoc_set "content" (JStr prompt) first).
    split.
    + unfold build_request_body, get_request_body_template.
      cbn [mbind option_bind]. rewrite Htpl.
      rewrite bind_lift_ok with (a := tpl) by done. rewrite !bind_log.
      rewrite bind_lift_ok with (a := prompt) by done.
      unfold mbind at 1, M_bind, bind at 1, mret, M_ret, ret.
      fold request_body.
      erewrite bind_lift_ok; cycle 1.
      { unfold set_first_message, Py.getitem. rewrite Hmsg. reflexivity. }
      unfold ret. by rewrite <- !app_assoc.
    + split; [apply assoc_set_eq|]. split; [apply assoc_set_eq|]. split.
      { intros k Hk. by apply assoc_set_ne. }
      split.
      * rewrite assoc_set_ne by done. unfold request_body.
        destruct (Py.assoc "system" (tpl_request tpl)) eqn:Hsys; cbn.
        -- apply assoc_set_eq.
        -- exact Hsys.
      * intros k Hk1 Hk2. rewrite assoc_set_ne by done. unfold request_body.
        destruct (Py.assoc "system" (tpl_request tpl)); [|done]. by apply assoc_set_ne.
Qed.

End request_bodies.

Lemma build_request_body_fills_template_witness :
  (BedrockHelper.build_request_body Fixture.world_passing Samples.cfg_chat
     (Some "missing") [JStr "what?"] None []
   = (Raise KeyError, []))
  ∧ ∃ body first',
      (BedrockHelper.build_request_body Fixture.world_passing Samples.cfg_chat
         (Some "chat") [JStr "what?"] None []).1 = Ok (JObj body)
      ∧ Py.assoc "messages" body
        = Some (JArr [JObj first'; JObj [("role", JStr "assistant")]])
      ∧ Py.assoc "content" first' = Some (JStr "question:what?")
      ∧ Py.assoc "system" body = Some (JStr "be helpful")
      ∧ Py.assoc "max_tokens" body = Some (JInt 100).
Proof.
  destruct (build_request_body_fills_template Fixture.world_passing Samples.cfg_chat
              "missing" [JStr "what?"] []) as [Hmissing _].
  destruct (build_request_body_fills_template Fixture.world_passing Samples.cfg_chat
              "chat" [JStr "what?"] []) as [_ Hknown].
  split; [apply Hmissing; reflexivity|].
  destruct (Hknown Samples.chat_template "question:what?"
              [("role", JStr "user"); ("content", JStr "")]
              [JObj [("role", JStr "assistant")]])
    as (body & first' & Hrun & Hmsg & Hcontent & _ & Hsys & Hother);
    [reflexivity | reflexivity | reflexivity |].
  exists body, first'. rewrite Hrun. split; [reflexivity|].
  split; [exact Hmsg|]. split; [exact Hcontent|]. split; [exact Hsys|].
  rewrite Hother; [reflexivity | discriminate | discriminate].
Defined.

(** ** The pure vector retriever *)

Section vector_retriever.
Import OpensearchDocumentsRetriever.
Context (w : World) (cfg : Config).

Lemma guarded_search_ok body t hits :
  opensearch_search w t body = Ok hits →
  EpDocumentsRetriever.guarded_search w body t = (Ok hits, t ++ [Search body]).
Proof.
  intros H. unfold EpDocumentsRetriever.guarded_search. apply try_except_ok.
  unfold call. by rewrite H.
Qed.

(** The pure vector retriever returns the vector hits as they come when
    no rerank model is configured.  It reranks whenever an identifier is
    present: with a non-empty one out of 25 candidates, with the empty
    text out of 8 candidates only, and with the empty text as the model
    to call. *)
Theorem vector_retriever_rerank_gate (query : string) (include_fields : option (list string))
    t query_embeddings hits :
  text2Vec_get_embeddings w t query = Ok query_embeddings →
  let searched size :=
    opensearch_search w (t ++ [GetEmbeddings query])
      (KnnBody size query_embeddings include_fields) = Ok hits in
  let after size :=
    (t ++ [GetEmbeddings query]) ++ [Search (KnnBody size query_embeddings include_fields)] in
  (rerank_model_id cfg = None → searched 8%nat →
     retrieve_context w cfg query include_fields t = (Ok hits, after 8%nat))
  ∧ (rerank_model_id cfg = Some "" → searched 8%nat →
     retrieve_context w cfg query include_fields t
     = ReRanker.rerank_results w "" (JStr query) hits "" (after 8%nat))
  ∧ (∀ model_id, rerank_model_id cfg = Some model_id → model_id ≠ "" → searched 25%nat →
     retrieve_context w cfg query include_fields t
     = ReRanker.rerank_results w model_id (JStr query) hits model_id (after 25%nat)).
Proof.
  intros Hembed searched after.
  split; [|split].
  - intros Hcfg Hsearch. unfold retrieve_context.
    erewrite bind_ok; [|unfold call; by rewrite Hembed].
    unfold EpDocumentsRetriever.rerank_enabled. rewrite Hcfg.
    unfold EpDocumentsRetriever.perform_vector_search.
    by rewrite (bind_ok _ _ _ _ _ (guarded_search_ok _ _ _ Hsearch)).
  - intros Hcfg Hsearch. unfold retrieve_context.
    erewrite bind_ok; [|unfold call; by rewrite Hembed].
    unfold EpDocumentsRetriever.rerank_enabled. rewrite Hcfg.
    change (String.eqb "" "") with true. cbv iota.
    unfold EpDocumentsRetriever.perform_vector_search.
    by rewrite (bind_ok _ _ _ _ _ (guarded_search_ok _ _ _ Hsearch)).
  - intros model_id Hcfg Hne Hsearch. unfold retrieve_context.
    erewrite bind_ok; [|unfold call; by rewrite Hembed].
    unfold EpDocumentsRetriever.rerank_enabled. rewrite Hcfg.
    rewrite (proj2 (String.eqb_neq model_id "") Hne).
    unfold EpDocumentsRetriever.perform_vector_search.
    by rewrite (bind_ok _ _ _ _ _ (guarded_search_ok _ _ _ Hsearch)).
Qed.

End vector_retriever.

(** ** Language detection *)

Section language_detection.
Import LanguageDetector.
Context (w : World) (cfg : Config).

Lemma take_app_exact (a b : string) : PyStr.take (String.length a) (a +:+ b) = a.
Proof.
  induction a as [|c a IH]; [by destruct b|].
  change (String c (PyStr.take (String.length a) (a +:+ b)) = String c a). by rewrite IH.
Qed.

Lemma take_all (a : string) : PyStr.take (String.length a) a = a.
Proof. induction a as [|c a IH]; [done|]. cbn. by rewrite IH. Qed.

(** Only the first 200 characters of the text reach the model: what
    follows them does not change the request, the outcome or the
    history. *)
Theorem detect_language_reads_200_characters (template_id : option string)
    (head tail : string) t :
  String.length head = 200%nat →
  detect_language w cfg template_id (head +:+ tail) t
  = detect_language w cfg template_id head t.
Proof.
  intros Hlen. unfold detect_language.
  pose proof (take_app_exact head tail) as Hlong. pose proof (take_all head) as Hshort.
  rewrite Hlen in Hlong, Hshort. by rewrite Hlong, Hshort.
Qed.

(** Language detection on failure: without a configured template the
    call raises [KeyError] and nothing is sent; a client error at the
    invocation is logged and answered with [None]; a parameter-validation
    error becomes [ValueError]. *)
Theorem detect_language_failures (text : string) t :
  detect_language w cfg None text t = (Raise KeyError, t)
  ∧ (∀ id request_body t1,
       BedrockHelper.build_request_body w cfg (Some id) [JStr (PyStr.take 200 text)] None t
       = (Ok request_body, t1) →
       (bedrock_rt_invoke_model w t1 request_body None = Raise ClientError →
          detect_language w cfg (Some id) text t
          = (Ok None, t1 ++ [InvokeModel request_body None] ++ [LogError ""]))
       ∧ (bedrock_rt_invoke_model w t1 request_body None = Raise ParamValidationError →
          detect_language w cfg (Some id) text t
          = (Raise ValueError, t1 ++ [InvokeModel request_body None]))).
Proof.
  split; [reflexivity|]. intros id request_body t1 Hbuild.
  split; intros Hsvc; apply invoke_model_raise_at_service in Hsvc;
    unfold detect_language; rewrite (bind_ok _ _ _ _ _ Hbuild).
  - erewrite try_except_caught; cycle 1.
    + apply bind_raise. exact Hsvc.
    + reflexivity.
    + rewrite bind_log. unfold mret, M_ret, ret. by rewrite <- app_assoc.
  - erewrite try_except_caught; cycle 1.
    + apply bind_raise. exact Hsvc.
    + reflexivity.
    + reflexivity.
Qed.

End language_detection.

Lemma vector_retriever_rerank_gate_witness :
  let hits := [Fixture.doc "A" "alpha"; Fixture.doc "B" "beta"] in
  let run cfg :=
    (OpensearchDocumentsRetriever.retrieve_context Fixture.world_ranking cfg "what?" None []) in
  run Fixture.cfg_guarded
  = (Ok hits, [GetEmbeddings "what?"; Search (KnnBody 8 [0.5%Q] None)])
  ∧ run Samples.cfg_rerank_empty
    = ReRanker.rerank_results Fixture.world_ranking "" (JStr "what?") hits ""
        [GetEmbeddings "what?"; Search (KnnBody 8 [0.5%Q] None)]
  ∧ run Samples.cfg_rerank
    = ReRanker.rerank_results Fixture.world_ranking "model" (JStr "what?") hits "model"
        [GetEmbeddings "what?"; Search (KnnBody 25 [0.5%Q] None)].
Proof.
  cbv zeta. split; [|split].
  - apply (proj1 (vector_retriever_rerank_gate Fixture.world_ranking Fixture.cfg_guarded
                    "what?" None [] [0.5%Q] _ eq_refl)); reflexivity.
  - apply (proj1 (proj2 (vector_retriever_rerank_gate Fixture.world_ranking
                           Samples.cfg_rerank_empty "what?" None [] [0.5%Q] _ eq_refl)));
      reflexivity.
  - apply (proj2 (proj2 (vector_retriever_rerank_gate Fixture.world_ranking
                           Samples.cfg_rerank "what?" None [] [0.5%Q] _ eq_refl)) "model");
      [reflexivity | discriminate | reflexivity].
Defined.

Lemma detect_language_reads_200_characters_witness :
  LanguageDetector.detect_language Fixture.world_passing Fixture.cfg_guarded
    (Some "translate") (Samples.long_text +:+ " and the rest") []
  = LanguageDetector.detect_language Fixture.world_passing Fixture.cfg_guarded
      (Some "translate") Samples.long_text [].
Proof.
  apply detect_language_reads_200_characters. vm_compute. reflexivity.
Defined.

Lemma detect_language_failures_witness :
  (LanguageDetector.detect_language (Fixture.world_failing_after 0 ClientError)
     Fixture.cfg_guarded (Some "translate") "bonjour" []).1 = Ok None
  ∧ (LanguageDetector.detect_language (Fixture.world_failing_after 0 ParamValidationError)
       Fixture.cfg_guarded (Some "translate") "bonjour" []).1 = Raise ValueError.
Proof.
  split.
  - edestruct (proj2 (detect_language_failures (Fixture.world_failing_after 0 ClientError)
                        Fixture.cfg_guarded "bonjour" []) "translate") as [H _];
      [vm_compute; reflexivity|].
    rewrite H; [reflexivity | vm_compute; reflexivity].
  - edestruct (proj2 (detect_language_failures
                        (Fixture.world_failing_after 0 ParamValidationError)
                        Fixture.cfg_guarded "bonjour" []) "translate") as [_ H];
      [vm_compute; reflexivity|].
    rewrite H; [reflexivity | vm_compute; reflexivity].
Defined.

(** ** Display titles *)

Section display_titles.
Import DocumentsListFormatter.

Lemma string_append_nil_r (a : string) : a +:+ EmptyString = a.
Proof.
  induction a as [|c a IH]; [done|].
  change (String c (a +:+ EmptyString) = String c a). by rewrite IH.
Qed.

Lemma chars_append (a b : string) :
  list_ascii_of_string (a +:+ b) = list_ascii_of_string a ++ list_ascii_of_string b.
Proof.
  induction a as [|c a IH]; [done|].
  change (c :: list_ascii_of_string (a +:+ b) = c :: (list_ascii_of_string a ++ list_ascii_of_string b)).
  by rewrite IH.
Qed.

Lemma split_slash_last (current s : string) :
  ("/"%char ∉ list_ascii_of_string current) →
  ∃ title front,
    last (PyStr.split_from "/" 0 current s) = Some title
    ∧ ("/"%char ∉ list_ascii_of_string title)
    ∧ current +:+ s = front +:+ title
    ∧ (front = EmptyString ∨ ∃ f, front = f +:+ "/").
Proof.
  revert current. induction s as [|c rest IH]; intros current Hcurrent.
  - exists current, EmptyString. split; [done|]. split; [done|].
    split; [apply string_append_nil_r | by left].
  - cbn [PyStr.split_from String.prefix].
    destruct (ascii_dec "/" c) as [<-|Hc].
    + replace (String.prefix EmptyString rest) with true by (by destruct rest).
      change (String.length "/" - 1)%nat with 0%nat.
      destruct (IH EmptyString) as (title & front & Hlast & Htitle & Hsplit & Hfront);
        [apply not_elem_of_nil|].
      exists title, (current +:+ "/" +:+ front).
      split; [by rewrite last_cons, Hlast|]. split; [done|]. split.
      * change (EmptyString +:+ rest) with rest in Hsplit. rewrite Hsplit.
        change (String "/" (front +:+ title)) with ("/" +:+ (front +:+ title)).
        by rewrite !string_append_assoc.
      * right. destruct Hfront as [->|[f ->]].
        -- exists current. done.
        -- exists (current +:+ "/" +:+ f). by rewrite !string_append_assoc.
    + destruct (IH (current +:+ String c EmptyString))
        as (title & front & Hlast & Htitle & Hsplit & Hfront).
      { rewrite chars_append, not_elem_of_app. split; [done|].
        cbn. rewrite not_elem_of_cons. split; [done | apply not_elem_of_nil]. }
      exists title, front. split; [done|]. split; [done|]. split; [|done].
      rewrite <- Hsplit. by rewrite string_append_assoc.
Qed.

(** The display title is what follows the last slash of the source
    address: it holds no slash, and the address is the title preceded by
    nothing or by a text that ends with a slash. *)
Theorem display_title_is_last_segment (document_source : string) :
  let title := display_title_of document_source in
  ("/"%char ∉ list_ascii_of_string title)
  ∧ ∃ front, document_source = front +:+ title
             ∧ (front = EmptyString ∨ ∃ f, front = f +:+ "/").
Proof.
  cbv zeta. unfold display_title_of, last_piece, PyStr.split.
  destruct (split_slash_last EmptyString document_source)
    as (title & front & -> & Htitle & Hsplit & Hfront); [apply not_elem_of_nil|].
  split; [done|]. exists front. done.
Qed.

(** The display titles are written document by document and the first
    document without a source address stops the loop: the documents
    before it carry a title, that document and all after it, with or
    without an address, are left as they were, and one warning is
    logged.  When every document has an address, all are titled and
    nothing is logged. *)
Theorem display_titles_stop_at_first_gap (before after : list Hit) t :
  let titled d :=
    with_display_title d (default EmptyString (_source d !! "x-amz-bedrock-kb-source-uri")) in
  Forall (λ d, is_Some (_source d !! "x-amz-bedrock-kb-source-uri")) before →
  add_display_title_to_documents before t = (Ok (titled <$> before), t)
  ∧ (∀ gap, _source gap !! "x-amz-bedrock-kb-source-uri" = None →
       add_display_title_to_documents (before ++ gap :: after) t
       = (Ok ((titled <$> before) ++ gap :: after),
          t ++ [LogWarning "Missing document field. "])).
Proof.
  cbv zeta. intros Hbefore.
  assert (Hloop : ∀ rest done,
            title_documents rest = done →
            title_documents (before ++ rest)
            = (((λ d, with_display_title d
                        (default EmptyString (_source d !! "x-amz-bedrock-kb-source-uri")))
                  <$> before) ++ done.1, done.2)).
  { intros rest done <-. induction Hbefore as [|d before [uri Huri] _ IH]; cbn.
    - by destruct (title_documents rest).
    - rewrite Huri, IH. reflexivity. }
  split.
  - unfold add_display_title_to_documents.
    pose proof (Hloop [] _ eq_refl) as H. rewrite !app_nil_r in H. by rewrite H.
  - intros gap Hgap. unfold add_display_title_to_documents.
    rewrite (Hloop (gap :: after) (gap :: after, false)); [done|].
    cbn. by rewrite Hgap.
Qed.

End display_titles.

Lemma display_titles_stop_at_first_gap_witness :
  let titled d :=
    DocumentsListFormatter.with_display_title d
      (default EmptyString (_source d !! "x-amz-bedrock-kb-source-uri")) in
  DocumentsListFormatter.add_display_title_to_documents [Samples.report] []
  = (Ok [titled Samples.report], [])
  ∧ DocumentsListFormatter.add_display_title_to_documents
      ([Samples.report] ++ Fixture.doc "A" "alpha" :: [Samples.minutes]) []
    = (Ok ([titled Samples.report] ++ Fixture.doc "A" "alpha" :: [Samples.minutes]),
       [LogWarning "Missing document field. "]).
Proof.
  cbv zeta.
  destruct (display_titles_stop_at_first_gap [Samples.report] [Samples.minutes] [])
    as [Hall Hgap].
  { repeat constructor. by eexists. }
  split; [exact Hall|]. apply Hgap. reflexivity.
Defined.

Example display_title_of_report :
  DocumentsListFormatter.display_title_of "s3://docs/2024/report.pdf" = "report.pdf"
  ∧ DocumentsListFormatter.display_title_of "report.pdf" = "report.pdf"
  ∧ DocumentsListFormatter.display_title_of "s3://docs/2024/" = "".
Proof. repeat split; vm_compute; reflexivity. Qed.

(** ** Athena result sets and language versions *)

Section language_versions.
Import DocumentsListFormatter.








Section with_athena.
Context (athena : list string → result (option (list (list string)))).

Lemma set_language_versions_default (documents : list Hit) t :
  Forall (λ d, is_Some (_source d !! "ffpath")) documents →
  ∃ t',
    set_language_versions documents [] t
    = (Ok ((λ d, (d, [("fr", default EmptyString (_source d !! "ffpath"))])) <$> documents),
       t').
Proof.
  intros Hdocs. revert t. induction Hdocs as [|d rest [path Hpath] _ IH]; intros t.
  - by exists t.
  - destruct (IH (t ++ [LogWarning "No language versions found for "])) as [t' Hrest].
    exists t'. cbn [set_language_versions]. unfold ffpath_of. rewrite Hpath.
    cbn [matching_versions].
    unfold mbind, M_bind, bind, lift, log, mret, M_ret, ret in *. cbv beta iota.
    rewrite Hrest. cbn. by rewrite Hpath.
Qed.

(** When Athena gives nothing usable (an exception, no result, or a
    result set that [format_lambda_response] cannot read), every document
    is taken to be French under its own path; the failure itself is only
    logged. *)
Theorem language_versions_default_to_french (documents : list Hit) t :
  documents ≠ [] →
  Forall (λ d, is_Some (_source d !! "ffpath")) documents →
  (∀ ffpaths,
     match athena ffpaths with
     | Ok (Some rows) => ∃ e, format_lambda_response rows = Raise e
     | Ok None => True
     | Raise _ => True
     end) →
  (add_language_versions athena documents t).1
  = Ok ((λ d, (d, [("fr", default EmptyString (_source d !! "ffpath"))])) <$> documents).
Proof.
  intros Hne Hdocs Hathena. unfold add_language_versions.
  destruct documents as [|d rest]; [done|].
  assert (Hpaths : ∃ ffpaths, mapM ffpath_of (d :: rest) = Ok ffpaths
                              ∧ length ffpaths = length (d :: rest)).
  { clear Hne Hathena. induction Hdocs as [|x l [path Hpath] _ IH]; [by exists []|].
    destruct IH as (paths & Hpaths & Hlen). exists (path :: paths).
    assert (ffpath_of x = Ok path) as Hx by (unfold ffpath_of; by rewrite Hpath).
    cbn [mapM]. rewrite Hx. cbn [mbind result_bind].
    rewrite Hpaths. split; [done | cbn; by rewrite Hlen]. }
  destruct Hpaths as (ffpaths & Hpaths & Hlen). rewrite Hpaths.
  rewrite bind_lift_ok with (a := ffpaths) by done.
  assert (Hnone : ∃ t1, get_language_versions athena ffpaths t = (Ok [], t1)).
  { unfold get_language_versions. destruct ffpaths as [|p ps]; [by exists t|].
    specialize (Hathena (p :: ps)).
    destruct (athena (p :: ps)) as [[rows|]|e].
    - destruct Hathena as [e He]. rewrite He. by eexists.
    - by eexists.
    - by eexists. }
  destruct Hnone as [t1 Hnone]. rewrite (bind_ok _ _ _ _ _ Hnone).
  destruct (set_language_versions_default (d :: rest) t1 Hdocs) as [t' Hset].
  by rewrite Hset.
Qed.

End with_athena.

End language_versions.



Lemma language_versions_default_to_french_witness :
  (DocumentsListFormatter.add_language_versions (λ _, Raise ClientError)
     [Samples.report; Samples.minutes] []).1
  = Ok [(Samples.report, [("fr", "2024/report.pdf")]);
        (Samples.minutes, [("fr", "2024/minutes.pdf")])].
Proof.
  rewrite (language_versions_default_to_french (λ _, Raise ClientError)
             [Samples.report; Samples.minutes] []).
  - reflexivity.
  - discriminate.
  - repeat constructor; by eexists.
  - intros ffpaths. exact I.
Defined.

(** A readable result set: the listed versions for the document it
    names, French for the other. *)
Example language_versions_from_rows :
  match (DocumentsListFormatter.format (λ _, Ok (Some Samples.language_rows))
           [Samples.report; Samples.minutes] []).1 with
  | Ok formatted => Some (snd <$> formatted)
  | Raise _ => None
  end
  = Some [[("fr", "2024/report.pdf"); ("en", "2024/report_en.pdf")];
          [("fr", "2024/minutes.pdf")]].
Proof. vm_compute. reflexivity. Qed.

(** ** The knowledge-base retriever *)

Section knowledge_base.
Context (w : World) (cfg : Config) (knowledgebase_number_of_results : nat).
Context (knowledge_base : json → Z → result (list KbDocument)).
Implicit Types (t : list event) (query : string).

Lemma convert_doc_hit (doc : KbDocument) hit :
  KnowledgebaseDocumentsRetriever.convert_doc doc = Ok hit →
  ReRanker.text_chunk hit = Ok (page_content doc) ∧
  _id hit = (source_metadata doc ≫= (.!! "x-amz-bedrock-kb-chunk-id")) ∧
  Some (_score hit) = kb_score doc.
Proof.
  unfold KnowledgebaseDocumentsRetriever.convert_doc.
  destruct (source_metadata doc) as [source|]; [|discriminate].
  rewrite lookup_insert_ne by done.
  destruct (source !! "x-amz-bedrock-kb-chunk-id") as [chunk_id|] eqn:Hid; [|discriminate].
  destruct (kb_score doc) as [score|]; [|discriminate].
  intros [= <-]. unfold ReRanker.text_chunk. cbn.
  rewrite lookup_insert. by rewrite ?decide_True by done.
Qed.

(** The hits made of knowledge-base documents carry the text of their
    document as text chunk and the chunk identifier as identity, one hit
    per document in the order given; one document without source
    metadata, chunk identifier or score makes the whole conversion raise
    [KeyError]. *)
Theorem convert_docs_all_or_nothing (docs : list KbDocument) :
  (∀ hits, KnowledgebaseDocumentsRetriever.convert_docs docs = Ok hits →
     mapM ReRanker.text_chunk hits = Ok (page_content <$> docs) ∧
     _id <$> hits = (λ doc, source_metadata doc ≫= (.!! "x-amz-bedrock-kb-chunk-id")) <$> docs) ∧
  (Exists (λ doc, (source_metadata doc ≫= (.!! "x-amz-bedrock-kb-chunk-id")) = None
                  ∨ kb_score doc = None) docs →
   KnowledgebaseDocumentsRetriever.convert_docs docs = Raise KeyError).
Proof.
  split.
  - intros hits H. apply mapM_result_inv in H.
    induction H as [|doc hit docs hits Hdoc _ [IH1 IH2]]; [done|].
    apply convert_doc_hit in Hdoc as (Hchunk & Hid & _).
    cbn [mapM fmap list_fmap]. rewrite Hchunk. cbn. 
    split.
    + change (mapM ReRanker.text_chunk hits ≫= (λ l, Ok (page_content doc :: l)) = Ok (page_content doc :: (page_content <$> docs))).
      by rewrite IH1.
    + f_equal; [done|]. exact IH2.
  - unfold KnowledgebaseDocumentsRetriever.convert_docs.
    induction 1 as [doc rest Hdoc|doc rest _ IH]; cbn [mapM].
    + assert (KnowledgebaseDocumentsRetriever.convert_doc doc = Raise KeyError) as ->; [|done].
      unfold KnowledgebaseDocumentsRetriever.convert_doc.
      destruct (source_metadata doc) as [source|]; [|done].
      rewrite lookup_insert_ne by done. cbn in Hdoc.
      destruct (source !! "x-amz-bedrock-kb-chunk-id"); [|done].
      destruct Hdoc as [?| ->]; done.
    + destruct (KnowledgebaseDocumentsRetriever.convert_doc doc) as [hit|e] eqn:Hdoc.
      * cbn. by rewrite IH.
      * cbn. unfold KnowledgebaseDocumentsRetriever.convert_doc in Hdoc.
        repeat case_match; congruence.
Qed.

Lemma retrieve_context_after_search query include_fields t translated_query results_knn t1 :
  KnowledgebaseDocumentsRetriever.translate_and_search w cfg knowledge_base query
    (KnowledgebaseDocumentsRetriever.kkn_max_num_of_results cfg
       knowledgebase_number_of_results) t
    = (Ok (translated_query, results_knn), t1) →
  KnowledgebaseDocumentsRetriever.retrieve_context w cfg knowledgebase_number_of_results
    knowledge_base query include_fields t
  = (query_entities ← EpDocumentsRetriever.preprocess_query w cfg translated_query;
     results_bm25 ← EpDocumentsRetriever.perform_bm25_search w query_entities
                      knowledgebase_number_of_results include_fields;
     let distinct_results := EpDocumentsRetriever.merge results_knn results_bm25 in
     match EpDocumentsRetriever.rerank_enabled cfg with
     | Some model_id =>
         ReRanker.rerank_results w model_id translated_query distinct_results model_id
     | None => mret distinct_results
     end) t1.
Proof.
  intros H. unfold KnowledgebaseDocumentsRetriever.retrieve_context.
  by rewrite (bind_ok _ _ _ _ _ H).
Qed.


(** When the translation succeeds but the vector search raises (the
    service fails, or a document cannot be converted), the exception is
    caught by the same clause: the vector hits are dropped, the
    translated query is kept for the keyword extraction and the
    reranking, and the warning logged is the one of a failed
    translation. *)
Theorem kb_vector_failure_keeps_translation query include_fields t answer t1 translated e :
  EpDocumentsRetriever.translate_to_french w cfg query t = (Ok (Some answer), t1) →
  (content ← Py.get answer "content" (JArr [JObj []]);
   first ← Py.getitem_int content 0;
   Py.get first "text" (JStr query)) = Ok translated →
  KnowledgebaseDocumentsRetriever.perform_knn_search knowledge_base translated
    (KnowledgebaseDocumentsRetriever.kkn_max_num_of_results cfg
       knowledgebase_number_of_results) = Raise e →
  KnowledgebaseDocumentsRetriever.retrieve_context w cfg knowledgebase_number_of_results
    knowledge_base query include_fields t
  = (query_entities ← EpDocumentsRetriever.preprocess_query w cfg translated;
     results_bm25 ← EpDocumentsRetriever.perform_bm25_search w query_entities
                      knowledgebase_number_of_results include_fields;
     let distinct_results := EpDocumentsRetriever.get_distinct_values results_bm25 in
     match EpDocumentsRetriever.rerank_enabled cfg with
     | Some model_id =>
         ReRanker.rerank_results w model_id translated distinct_results model_id
     | None => mret distinct_results
     end) (t1 ++ [KnowledgebaseDocumentsRetriever.translation_warning]).
Proof.
  intros Htr Htext Hknn.
  apply (retrieve_context_after_search query include_fields t translated []).
  unfold KnowledgebaseDocumentsRetriever.translate_and_search.
  apply try_except_ok.
  rewrite (bind_ok _ _ _ _ _ Htr).
  rewrite (bind_lift_ok _ _ _ _ Htext).
  erewrite try_except_caught; cycle 1.
  - apply bind_raise. unfold lift. by rewrite Hknn.
  - reflexivity.
  - reflexivity.
Qed.


End knowledge_base.


(** ** The generic context formatter *)

Section generic_context.
Context (w : World) (cfg : Config).

Lemma custom_tags_unknown (custom_fields : list string) (source : gmap string string)
    (field : string) (context : string) t :
  source !! field = Some "unknown" →
  GenericContextFormatter.custom_tags custom_fields source context t
  = GenericContextFormatter.custom_tags custom_fields (delete field source) context t.
Proof.
  intros Hfield. revert context t.
  induction custom_fields as [|field_key rest IH]; intros context t; [done|].
  cbn [GenericContextFormatter.custom_tags].
  destruct (decide (field_key = field)) as [->|Hne].
  - rewrite Hfield, lookup_delete_eq. cbn. rewrite !bind_log. apply IH.
  - rewrite (lookup_delete_ne source field field_key) by done.
    destruct (String.eqb _ "unknown"); [rewrite !bind_log|]; apply IH.
Qed.

Lemma format_loop_unknown (custom_fields : list string) (field : string)
    (before after : list Hit) (document : Hit) context count t :
  _source document !! field = Some "unknown" →
  field ≠ "AMAZON_BEDROCK_TEXT_CHUNK" →
  GenericContextFormatter.format_loop custom_fields context count
    (before ++ document :: after) t
  = GenericContextFormatter.format_loop custom_fields context count
      (before ++ mkHit (_id document) (_score document) (delete field (_source document))
              :: after) t.
Proof.
  intros Hfield Hne. revert context count t.
  induction before as [|first before IH]; intros context count t.
  - cbn [app GenericContextFormatter.format_loop _source].
    unfold mbind, M_bind, bind.
    rewrite <- (custom_tags_unknown _ _ _ _ _ Hfield).
    destruct (GenericContextFormatter.custom_tags _ _ _ t) as [[context'|e] t1]; [|done].
    unfold ReRanker.text_chunk. cbn [_source].
    by rewrite (lookup_delete_ne (_source document)) by done.
  - cbn [app GenericContextFormatter.format_loop].
    unfold mbind, M_bind, bind.
    destruct (GenericContextFormatter.custom_tags _ _ _ t) as [[context'|e] t1]; [|done].
    destruct (lift (ReRanker.text_chunk first) t1) as [[chunk|e] t2]; [|done].
    apply IH.
Qed.

(** A custom field that holds the text unknown is treated as a field the
    document does not have: the context and the warnings are those of
    the same documents with that field removed. *)
Theorem unknown_value_is_a_missing_field (env_custom_fields : option string)
    (field : string) (before after : list Hit) (document : Hit) t :
  _source document !! field = Some "unknown" →
  field ≠ "AMAZON_BEDROCK_TEXT_CHUNK" →
  GenericContextFormatter.format_context w cfg env_custom_fields
    (before ++ document :: after) t
  = GenericContextFormatter.format_context w cfg env_custom_fields
      (before ++ mkHit (_id document) (_score document) (delete field (_source document))
              :: after) t.
Proof.
  intros Hfield Hne. unfold GenericContextFormatter.format_context.
  unfold mbind, M_bind, bind.
  by rewrite (format_loop_unknown _ field before after document _ _ _ Hfield Hne).
Qed.

End generic_context.


(** ** The request handler *)

Section handler.
Context {D : Type}.
Context (answer_question : gmap string string → M (json * list Hit)).
Context (documents_list_formatter : list Hit → M (list D)).
Context (client_error_message : option string).
Implicit Types (t : list event) (event : gmap string (option (gmap string string))).

(** An answer that is the empty dictionary, which is what the chatbot
    returns after a client error at the answer invocation, makes the
    handler raise [KeyError] once the documents are formatted: no
    response is returned. *)
Theorem handler_empty_answer_raises response_body event question instructions
    t documents t1 formatted t2 :
  LambdaAnswerQuestion.query_parameter event "question" = LambdaAnswerQuestion.Found question →
  LambdaAnswerQuestion.query_parameter event "instructions"
    = LambdaAnswerQuestion.Found instructions →
  instructions ≠ "upload" →
  answer_question (<["question" := question]> (<["instructions" := instructions]> ∅)) t
    = (Ok (JObj [], documents), t1) →
  documents_list_formatter documents t1 = (Ok formatted, t2) →
  LambdaAnswerQuestion.lambda_answer_question answer_question documents_list_formatter
    client_error_message response_body event t = (Raise KeyError, t2).
Proof.
  intros Hq Hi Hup Hans Hfmt. unfold LambdaAnswerQuestion.lambda_answer_question.
  rewrite Hq, Hi. apply String.eqb_neq in Hup. rewrite Hup.
  erewrite bind_ok; cycle 1.
  { apply try_except_ok. by rewrite (bind_ok _ _ _ _ _ Hans). }
  cbn beta iota. by rewrite (bind_ok _ _ _ _ _ Hfmt).
Qed.

(** The two error reports of the handler, for a missing parameter and for
    a client error of the chatbot, are written into the body the previous
    request left: into a dictionary the message goes under ['msg'], its
    other entries kept; a body that is a text makes the report itself
    raise [TypeError]. *)
Theorem handler_error_reports response_body event t :
  (∀ key,
     LambdaAnswerQuestion.query_parameter event "question" = LambdaAnswerQuestion.Missing key
     ∨ (∃ question,
          LambdaAnswerQuestion.query_parameter event "question"
            = LambdaAnswerQuestion.Found question)
       ∧ LambdaAnswerQuestion.query_parameter event "instructions"
           = LambdaAnswerQuestion.Missing key →
     LambdaAnswerQuestion.lambda_answer_question answer_question documents_list_formatter
    client_error_message response_body event t
     = (match response_body with
        | LambdaAnswerQuestion.BodyDict entries =>
            Ok (LambdaAnswerQuestion.BodyDict
                  (<["msg" := "Wrong input param='" +:+ key +:+ "' not set."]> entries))
        | LambdaAnswerQuestion.BodyText _ => Raise TypeError
        end, t ++ [LogError "Wrong input param="])) ∧
  (∀ question instructions t1 message,
     LambdaAnswerQuestion.query_parameter event "question"
       = LambdaAnswerQuestion.Found question →
     LambdaAnswerQuestion.query_parameter event "instructions"
       = LambdaAnswerQuestion.Found instructions →
     instructions ≠ "upload" →
     answer_question (<["question" := question]> (<["instructions" := instructions]> ∅)) t
       = (Raise ClientError, t1) →
     client_error_message = Some message →
     LambdaAnswerQuestion.lambda_answer_question answer_question documents_list_formatter
    client_error_message response_body event t
     = (match response_body with
        | LambdaAnswerQuestion.BodyDict entries =>
            Ok (LambdaAnswerQuestion.BodyDict
                  (<["msg" := "Error=" +:+ message +:+ ", while executing " +:+ question]>
                     entries))
        | LambdaAnswerQuestion.BodyText _ => Raise TypeError
        end, t1 ++ [LogError "A client error occurred: "])).
Proof.
  split.
  - intros key [Hq|[[question Hq] Hi]];
      unfold LambdaAnswerQuestion.lambda_answer_question; rewrite Hq; [|rewrite Hi];
      by destruct response_body.
  - intros question instructions t1 message Hq Hi Hup Hans Hmsg.
    unfold LambdaAnswerQuestion.lambda_answer_question.
    rewrite Hq, Hi. apply String.eqb_neq in Hup. rewrite Hup.
    erewrite bind_ok; cycle 1.
    { erewrite try_except_caught; cycle 1.
      - apply bind_raise. exact Hans.
      - reflexivity.
      - reflexivity. }
    cbn beta iota. rewrite Hmsg. by destruct response_body.
Qed.

(** Once the body is a text it stays one: whatever the later request,
    the handler returns a text body or raises. *)
Theorem handler_text_body_is_absorbing dumped event t response_body t' :
  LambdaAnswerQuestion.lambda_answer_question answer_question documents_list_formatter
    client_error_message (LambdaAnswerQuestion.BodyText dumped) event t = (Ok response_body, t') →
  ∃ dumped', response_body = LambdaAnswerQuestion.BodyText dumped'.
Proof.
  unfold LambdaAnswerQuestion.lambda_answer_question.
  destruct (LambdaAnswerQuestion.query_parameter event "question") as [question|key|];
    [|discriminate..].
  destruct (LambdaAnswerQuestion.query_parameter event "instructions")
    as [instructions|key|]; [|discriminate..].
  destruct (String.eqb instructions "upload").
  { intros [= <- <-]. eauto. }
  intros H. apply bind_inv in H as (answered & t1 & _ & H).
  destruct answered as [[answer referenced_documents]|].
  - apply bind_inv in H as (documents & t2 & _ & H).
    apply bind_inv in H as (content & t3 & _ & H).
    apply bind_inv in H as (first & t4 & _ & H).
    apply bind_inv in H as (text & t5 & _ & H).
    destruct text; try discriminate. injection H as <- <-. eauto.
  - apply bind_inv in H as (message & t2 & _ & H).
    rewrite bind_log in H. discriminate.
Qed.


End handler.

(** ** The added properties on concrete requests *)

Lemma convert_docs_all_or_nothing_witness :
  mapM ReRanker.text_chunk
    (default []
       (match KnowledgebaseDocumentsRetriever.convert_docs [Scenes.passage] with
        | Ok hits => Some hits
        | Raise _ => None
        end)) = Ok ["alpha"]
  ∧ KnowledgebaseDocumentsRetriever.convert_docs [Scenes.passage; Scenes.unscored_passage]
    = Raise KeyError.
Proof.
  split.
  - destruct (convert_docs_all_or_nothing [Scenes.passage]) as [H _].
    destruct (KnowledgebaseDocumentsRetriever.convert_docs [Scenes.passage])
      as [hits|e] eqn:Hhits; [|vm_compute in Hhits; discriminate].
    exact (proj1 (H hits eq_refl)).
  - destruct (convert_docs_all_or_nothing [Scenes.passage; Scenes.unscored_passage])
      as [_ H].
    apply H. apply Exists_cons_tl, Exists_cons_hd. right. reflexivity.
Defined.


Lemma kb_vector_failure_keeps_translation_witness :
  (KnowledgebaseDocumentsRetriever.retrieve_context
     Fixture.world_passing Fixture.cfg_unguarded 5
     (λ _ _, Ok [Scenes.passage; Scenes.unscored_passage]) "what?" None []).2
  = (EpDocumentsRetriever.translate_to_french Fixture.world_passing Fixture.cfg_unguarded
       "what?" []).2
    ++ [LogWarning "Query translation failed, using original query. Error: ";
        LogWarning "WHAT EXACTLY IS INSIDE request_body_template_id: ";
        LogWarning "WHAT EXACTLY IS INSIDE values: ";
        LogWarning "WHAT EXACTLY IS INSIDE request_body_template: ";
        InvokeModel
          (JObj [("system", JStr "system:analyze_query");
                 ("messages",
                  JArr [JObj [("role", JStr "user");
                              ("content", JStr "analyze_query:intent")]])])
          None;
        Search (Bm25Body 5 (JStr "") None)].
Proof.
  erewrite kb_vector_failure_keeps_translation; cycle 1.
  - vm_compute. reflexivity.
  - vm_compute. reflexivity.
  - vm_compute. reflexivity.
  - vm_compute. reflexivity.
Defined.

Lemma unknown_value_is_a_missing_field_witness :
  GenericContextFormatter.format_context Fixture.world_passing Scenes.cfg_titles None
    [Scenes.untitled] []
  = (Ok ("<documents><document><document_id>1</document_id>"
         +:+ "<document_excerpt>alpha</document_excerpt></document></documents>"),
     [LogWarning "custom field "]).
Proof.
  change [Scenes.untitled] with ([] ++ Scenes.untitled :: []).
  rewrite (unknown_value_is_a_missing_field Fixture.world_passing Scenes.cfg_titles None
             "title" [] [] Scenes.untitled []); [|reflexivity|discriminate].
  vm_compute. reflexivity.
Defined.

Lemma handler_empty_answer_raises_witness :
  (LambdaAnswerQuestion.lambda_answer_question
     (Chatbot.ep_answer_question (Fixture.world_failing_after 3 ClientError)
        Fixture.cfg_unguarded)
     DocumentsListFormatter.add_display_title_to_documents (Some "throttled")
     (LambdaAnswerQuestion.BodyDict ∅) Scenes.api_event []).1
  = Raise KeyError.
Proof.
  erewrite handler_empty_answer_raises; cycle 1.
  - vm_compute. reflexivity.
  - vm_compute. reflexivity.
  - discriminate.
  - vm_compute. reflexivity.
  - vm_compute. reflexivity.
  - reflexivity.
Defined.

Lemma handler_error_reports_witness :
  let chat := Chatbot.ep_answer_question (Cases.world_guard_down ClientError)
                Fixture.cfg_guarded in
  let handler := LambdaAnswerQuestion.lambda_answer_question chat
                   DocumentsListFormatter.add_display_title_to_documents
                   (Some "throttled") in
  (handler (LambdaAnswerQuestion.BodyDict ∅) Scenes.event_without_instructions []).1
  = Ok (LambdaAnswerQuestion.BodyDict
          {[ "msg" := "Wrong input param='instructions' not set." ]})
  ∧ (handler (LambdaAnswerQuestion.BodyText LambdaAnswerQuestion.Uploaded)
       Scenes.event_without_instructions []).1 = Raise TypeError
  ∧ (handler (LambdaAnswerQuestion.BodyDict ∅) Scenes.api_event []).1
    = Ok (LambdaAnswerQuestion.BodyDict
            {[ "msg" := "Error=throttled, while executing what?" ]})
  ∧ (handler (LambdaAnswerQuestion.BodyText LambdaAnswerQuestion.Uploaded)
       Scenes.api_event []).1 = Raise TypeError.
Proof.
  cbv zeta.
  pose (chat := Chatbot.ep_answer_question (Cases.world_guard_down ClientError)
                  Fixture.cfg_guarded).
  assert (Hmissing : ∀ response_body,
            LambdaAnswerQuestion.lambda_answer_question chat
              DocumentsListFormatter.add_display_title_to_documents (Some "throttled")
              response_body Scenes.event_without_instructions []
            = (match response_body with
               | LambdaAnswerQuestion.BodyDict entries =>
                   Ok (LambdaAnswerQuestion.BodyDict
                         (<["msg" := "Wrong input param='instructions' not set."]> entries))
               | LambdaAnswerQuestion.BodyText _ => Raise TypeError
               end, [LogError "Wrong input param="])).
  { intros response_body.
    apply (proj1 (handler_error_reports chat
                    DocumentsListFormatter.add_display_title_to_documents
                    (Some "throttled") response_body Scenes.event_without_instructions [])
             "instructions").
    right. split; [exists "what?"|]; vm_compute; reflexivity. }
  assert (Hclient : ∀ response_body,
            (LambdaAnswerQuestion.lambda_answer_question chat
               DocumentsListFormatter.add_display_title_to_documents (Some "throttled")
               response_body Scenes.api_event []).1
            = match response_body with
              | LambdaAnswerQuestion.BodyDict entries =>
                  Ok (LambdaAnswerQuestion.BodyDict
                        (<["msg" := "Error=throttled, while executing what?"]> entries))
              | LambdaAnswerQuestion.BodyText _ => Raise TypeError
              end).
  { intros response_body.
    erewrite (proj2 (handler_error_reports chat
                       DocumentsListFormatter.add_display_title_to_documents
                       (Some "throttled") response_body Scenes.api_event [])
                "what?" "be brief"); cycle 1.
    - vm_compute. reflexivity.
    - vm_compute. reflexivity.
    - discriminate.
    - vm_compute. reflexivity.
    - reflexivity.
    - reflexivity. }
  subst chat. split; [|split; [|split]].
  - by rewrite Hmissing.
  - by rewrite Hmissing.
  - by rewrite Hclient.
  - by rewrite Hclient.
Defined.

Lemma handler_text_body_is_absorbing_witness :
  ∃ dumped,
    (LambdaAnswerQuestion.lambda_answer_question
       (Chatbot.ep_answer_question Fixture.world_passing Fixture.cfg_unguarded)
       DocumentsListFormatter.add_display_title_to_documents (Some "throttled")
       (LambdaAnswerQuestion.BodyText LambdaAnswerQuestion.Uploaded)
       Scenes.api_event []).1
    = Ok (LambdaAnswerQuestion.BodyText dumped).
Proof.
  edestruct (handler_text_body_is_absorbing
               (Chatbot.ep_answer_question Fixture.world_passing Fixture.cfg_unguarded)
               DocumentsListFormatter.add_display_title_to_documents (Some "throttled")
               LambdaAnswerQuestion.Uploaded Scenes.api_event []) as [dumped H];
    [vm_compute; reflexivity|].
  exists dumped. rewrite <- H. vm_compute. reflexivity.
Defined.

(** A request answered from the start of a container to the response
    body: the answer of the model and the three documents, best last. *)
Example handler_completed_request :
  match (LambdaAnswerQuestion.lambda_answer_question
           (Chatbot.ep_answer_question Fixture.world_passing Fixture.cfg_unguarded)
           DocumentsListFormatter.add_display_title_to_documents (Some "throttled")
           (LambdaAnswerQuestion.BodyDict ∅) Scenes.api_event []).1 with
  | Ok (LambdaAnswerQuestion.BodyText (LambdaAnswerQuestion.Completed llm_answer documents)) =>
      Some (llm_answer, _id <$> documents)
  | _ => None
  end = Some ("intent", [Some "C"; Some "B"; Some "A"]).
Proof. vm_compute. reflexivity. Qed.
